(** * Finanzas personales 80/10/10: verification of the data and summary core

    Shallow embedding of [src/app.py]: the bucket classifier
    [clasificar_bucket], the SQLite-backed data access functions
    ([insertar_ingreso], [insertar_gasto], [obtener_ingresos],
    [obtener_gastos], [eliminar_ingreso], [eliminar_gasto],
    [obtener_anios_disponibles]), the period summary [resumen_buckets] and
    the balance figures computed by the Streamlit handlers.

    Modelling conventions.
    - A Python [str] is a Rocq [string]; each character stands for one code
      point below 256.  Lexicographic comparison of such strings is the
      comparison SQLite's BINARY collation performs on the stored text.
    - Amounts and percentages (Python floats, SQLite REAL) are exact
      rationals [Qc] in the store; the statements about the store move
      rows around and use no law of arithmetic.  Where the source compares
      the result of float additions, in the income form, the additions are
      those of binary64, and [Binary64] evaluates the derived amounts on
      doubles.
    - A delete is a call with a key: SQLite takes a key of the signed
      64-bit range, and the call raises for any other.
    - A table is the list of its rows in rowid (insertion) order, together
      with the AUTOINCREMENT counter that SQLite keeps for it.
    - [datetime.strptime] and [datetime.now] are library calls: the store
      operations are parametric in the parser, and a concrete parser for
      the format [%Y-%m-%d] is supplied for evaluation. *)

From Stdlib Require Import ZArith NArith QArith Qcanon Ascii String List Lia.
From Stdlib Require Import Floats.PrimFloat Floats.SpecFloat Floats.FloatOps.
From stdpp Require Import base decidable option list sorting.

Local Open Scope string_scope.

(** ** Python string primitives used by the source *)

Module Str.

(** [str.isspace] on code points below 256: TAB..CR, FS..US, SPACE,
    NEL (0x85) and NBSP (0xA0). *)
Definition isspace (c : ascii) : bool :=
  let n := N_of_ascii c in
  ((9 <=? n) && (n <=? 13) || (28 <=? n) && (n <=? 32)
   || (n =? 133) || (n =? 160))%N.

(** [str.lower] on one code point below 256: A..Z and the Latin-1
    capitals 0xC0..0xDE (except the multiplication sign 0xD7). *)
Definition lower_char (c : ascii) : ascii :=
  let n := N_of_ascii c in
  if ((65 <=? n) && (n <=? 90)
      || (192 <=? n) && (n <=? 222) && negb (n =? 215))%N
  then ascii_of_N (n + 32) else c.

Fixpoint lower (s : string) : string :=
  match s with
  | EmptyString => EmptyString
  | String c s' => String (lower_char c) (lower s')
  end.

Fixpoint lstrip (s : string) : string :=
  match s with
  | EmptyString => EmptyString
  | String c s' => if isspace c then lstrip s' else s
  end.

Fixpoint rstrip (s : string) : string :=
  match s with
  | EmptyString => EmptyString
  | String c s' =>
      match rstrip s' with
      | EmptyString => if isspace c then EmptyString else String c EmptyString
      | t => String c t
      end
  end.

(** [s.strip()] *)
Definition strip (s : string) : string := rstrip (lstrip s).

(** Every character of [s] is whitespace. *)
Fixpoint blank (s : string) : bool :=
  match s with
  | EmptyString => true
  | String c s' => isspace c && blank s'
  end.

Definition first_char (s : string) : option ascii :=
  match s with EmptyString => None | String c _ => Some c end.

Fixpoint last_char (s : string) : option ascii :=
  match s with
  | EmptyString => None
  | String c EmptyString => Some c
  | String _ s' => last_char s'
  end.

End Str.

(** ** Bucket classifier *)

Inductive Bucket : Type := Necesidades | Deseos | Ahorro.

#[global] Instance Bucket_eq_dec : EqDecision Bucket.
Proof. solve_decision. Defined.

(** The key a bucket has in the dictionaries of the source. *)
Definition bucket_name (b : Bucket) : string :=
  match b with
  | Necesidades => "Necesidades"
  | Deseos => "Deseos"
  | Ahorro => "Ahorro"
  end.

Definition clasificar_bucket (categoria : string) : Bucket :=
  if String.eqb (Str.lower (Str.strip categoria)) "deseos" then Deseos
  else if String.eqb (Str.lower (Str.strip categoria)) "ahorro" then Ahorro
  else Necesidades.

(** The rule in the words of the specification: the category, with
    surrounding whitespace removed, equals the label when case is ignored. *)
Definition equals_ignoring_case (s t : string) : Prop :=
  Str.lower s = Str.lower t.

Definition matches_label (label categoria : string) : Prop :=
  exists l body r,
    categoria = l ++ body ++ r
    /\ Str.blank l = true /\ Str.blank r = true
    /\ equals_ignoring_case body label.

(** ** Record store *)

(** A row of table [ingresos]. *)
Record Ingreso : Type := {
  id_ingreso : Z;
  ing_fecha : string;
  ing_anio : Z;
  ing_mes : Z;
  ing_concepto : string;
  valor_total : Qc;
  porc_necesidades : Qc;
  porc_deseos : Qc;
  porc_ahorro : Qc;
  monto_necesidades : Qc;
  monto_deseos : Qc;
  monto_ahorro : Qc
}.

(** A row of table [gastos]. *)
Record Gasto : Type := {
  id_gasto : Z;
  gas_fecha : string;
  gas_anio : Z;
  gas_mes : Z;
  categoria : string;
  gas_concepto : string;
  valor : Qc
}.

(** The columns both tables share: primary key, [fecha], [anio], [mes]. *)
Class Fila (R : Type) : Type := {
  rowid : R -> Z;
  fecha : R -> string;
  anio : R -> Z;
  mes : R -> Z
}.

#[global] Instance Fila_Ingreso : Fila Ingreso :=
  {| rowid := id_ingreso; fecha := ing_fecha; anio := ing_anio; mes := ing_mes |}.

#[global] Instance Fila_Gasto : Fila Gasto :=
  {| rowid := id_gasto; fecha := gas_fecha; anio := gas_anio; mes := gas_mes |}.

(** A table with an [INTEGER PRIMARY KEY AUTOINCREMENT] column: its rows in
    rowid order and the largest rowid ever handed out. *)
Record Tabla (R : Type) : Type := {
  filas : list R;
  secuencia : Z
}.
Arguments filas {R} _.
Arguments secuencia {R} _.

Record DB : Type := {
  ingresos : Tabla Ingreso;
  gastos : Tabla Gasto
}.

(** State after [inicializar_base_datos] on a fresh file. *)
Definition tabla_vacia {R : Type} : Tabla R := {| filas := []; secuencia := 0 |}.
Definition db_vacia : DB := {| ingresos := tabla_vacia; gastos := tabla_vacia |}.

Section Tablas.
Context {R : Type} `{Fila R}.

Definition max_rowid (l : list R) : Z :=
  foldr (fun r acc => Z.max (rowid r) acc) 0%Z l.

(** AUTOINCREMENT: one more than the largest rowid that exists or ever
    existed in the table. *)
Definition next_rowid (t : Tabla R) : Z :=
  (Z.max (max_rowid (filas t)) (secuencia t) + 1)%Z.

(** [INSERT INTO t (...) VALUES (...)]: the row is built from its key. *)
Definition sql_insert (t : Tabla R) (mk : Z -> R) : Tabla R :=
  let k := next_rowid t in
  {| filas := filas t ++ [mk k]; secuencia := k |}.

(** [DELETE FROM t WHERE id = ?] *)
Definition sql_delete (t : Tabla R) (k : Z) : Tabla R :=
  {| filas := filter (fun r => rowid r <> k) (filas t);
     secuencia := secuencia t |}.

(** The [WHERE] clause the query functions may append, with its bound
    parameters. *)
Inductive Where : Type :=
| SinWhere
| WhereAnio (a : Z)
| WhereAnioMes (a m : Z).

Definition cumple (w : Where) (r : R) : bool :=
  match w with
  | SinWhere => true
  | WhereAnio a => (anio r =? a)%Z
  | WhereAnioMes a m => (anio r =? a)%Z && (mes r =? m)%Z
  end.

(** [ORDER BY fecha DESC]: text comparison; rows with equal [fecha] stay
    in rowid order. *)
Fixpoint insert_desc (r : R) (l : list R) : list R :=
  match l with
  | [] => [r]
  | x :: l' =>
      if String.leb (fecha x) (fecha r) then r :: l
      else x :: insert_desc r l'
  end.

Definition order_by_fecha_desc (l : list R) : list R :=
  foldr insert_desc [] l.

(** [r1] may precede [r2] in a result ordered by [fecha] descending. *)
Definition fecha_desc (r1 r2 : R) : Prop :=
  String.leb (fecha r2) (fecha r1) = true.

(** [pd.read_sql_query("SELECT * FROM t" + where + " ORDER BY fecha DESC")] *)
Definition read_sql_query (t : Tabla R) (w : Where) : list R :=
  order_by_fecha_desc (List.filter (cumple w) (filas t)).

(** The query text and parameters built by [obtener_ingresos] and
    [obtener_gastos]. *)
Definition armar_where (anio mes : option Z) : Where :=
  match anio, mes with
  | Some a, Some m => WhereAnioMes a m
  | Some a, None => WhereAnio a
  | None, _ => SinWhere
  end.

(** [df[col].sum()] *)
Definition sum_col (f : R -> Qc) (l : list R) : Qc :=
  foldr (fun r acc => (f r + acc)%Qc) (Q2Qc 0) l.

(** [df.empty] *)
Definition empty (l : list R) : bool :=
  match l with [] => true | _ => false end.

(** The rows of a period, as the specification names them. *)
Definition del_periodo (a m : Z) (l : list R) : list R :=
  List.filter (fun r => (anio r =? a)%Z && (mes r =? m)%Z) l.

End Tablas.

Definition obtener_ingresos (db : DB) (anio mes : option Z) : list Ingreso :=
  read_sql_query (ingresos db) (armar_where anio mes).

Definition obtener_gastos (db : DB) (anio mes : option Z) : list Gasto :=
  read_sql_query (gastos db) (armar_where anio mes).

(** The store after [DELETE FROM ingresos WHERE id_ingreso = ?] has run
    with the key bound; the call itself is [llamar_eliminar_ingreso]. *)
Definition eliminar_ingreso (db : DB) (id : Z) : DB :=
  {| ingresos := sql_delete (ingresos db) id; gastos := gastos db |}.

Definition eliminar_gasto (db : DB) (id : Z) : DB :=
  {| ingresos := ingresos db; gastos := sql_delete (gastos db) id |}.

(** The integers the [sqlite3] module can bind to a [?]: the signed
    64-bit ones. *)
Definition int64 (k : Z) : bool := ((- 2 ^ 63 <=? k) && (k <? 2 ^ 63))%Z.

(** The calls [eliminar_ingreso(id)] and [eliminar_gasto(id)] with any
    Python integer: binding one outside the signed 64-bit range raises
    [OverflowError] ([None]) and no statement runs; otherwise the
    [DELETE] runs. *)
Definition llamar_eliminar_ingreso (db : DB) (id : Z) : option DB :=
  if int64 id then Some (eliminar_ingreso db id) else None.

Definition llamar_eliminar_gasto (db : DB) (id : Z) : option DB :=
  if int64 id then Some (eliminar_gasto db id) else None.

(** [SELECT DISTINCT anio FROM ingresos UNION SELECT DISTINCT anio FROM
    gastos ORDER BY anio DESC] *)
Definition select_anios (db : DB) : list Z :=
  merge_sort (flip Z.le)
    (remove_dups (remove_dups (anio <$> filas (ingresos db))
                  ++ remove_dups (anio <$> filas (gastos db)))).

(** [now_year] is [datetime.now().year]. *)
Definition obtener_anios_disponibles (now_year : Z) (db : DB) : list Z :=
  let anios := select_anios db in
  match anios with
  | [] => [now_year]
  | _ => anios
  end.

(** ** Dates *)

Record datetime : Type := { year : Z; month : Z; day : Z }.

Module Fecha.

Definition digit_char (n : Z) : ascii := ascii_of_N (48 + Z.to_N n).

Definition digit_val (c : ascii) : option Z :=
  let n := N_of_ascii c in
  if ((48 <=? n) && (n <=? 57))%N then Some (Z.of_N n - 48)%Z else None.

Definition pad2 (n : Z) : string :=
  String (digit_char (n / 10)) (String (digit_char (n mod 10)) EmptyString).

Definition pad4 (n : Z) : string := pad2 (n / 100) ++ pad2 (n mod 100).

(** The digits of a number below 1000, without padding. *)
Definition sin_relleno (n : Z) : string :=
  if (n <? 10)%Z then String (digit_char n) EmptyString
  else if (n <? 100)%Z then pad2 n
  else String (digit_char (n / 100)) (pad2 (n mod 100)).

(** [d.strftime("%Y-%m-%d")] as the C library prints it: month and day
    padded to two digits, the year with its own digits, which are four
    from the year 1000 on. *)
Definition strftime_ymd (d : datetime) : string :=
  (if (year d <? 1000)%Z then sin_relleno (year d) else pad4 (year d))
  ++ "-" ++ pad2 (month d) ++ "-" ++ pad2 (day d).

Definition is_leap (y : Z) : bool :=
  ((y mod 4 =? 0) && (negb (y mod 100 =? 0) || (y mod 400 =? 0)))%Z.

Definition days_in_month (y m : Z) : Z :=
  if (m =? 2)%Z then (if is_leap y then 29 else 28)%Z
  else if ((m =? 4) || (m =? 6) || (m =? 9) || (m =? 11))%Z then 30%Z
  else 31%Z.

(** The calendar check of the [datetime] constructor. *)
Definition fecha_valida (y m d : Z) : bool :=
  ((1 <=? y) && (y <=? 9999) && (1 <=? m) && (m <=? 12)
   && (1 <=? d) && (d <=? days_in_month y m))%Z.

(** Directive [%Y]: exactly four digits. *)
Definition parse_Y (s : string) : option (Z * string) :=
  match s with
  | String a (String b (String c (String d rest))) =>
      match digit_val a, digit_val b, digit_val c, digit_val d with
      | Some a, Some b, Some c, Some d =>
          Some (1000 * a + 100 * b + 10 * c + d, rest)%Z
      | _, _, _, _ => None
      end
  | _ => None
  end.

(** Directives [%m] and [%d] before the literal [stop] (or the end of the
    text): one or two digits. *)
Definition parse_1_2 (stop : option ascii) (s : string) : option (Z * string) :=
  let at_stop (rest : string) : bool :=
    match stop, rest with
    | None, EmptyString => true
    | Some c, String c' _ => Ascii.eqb c c'
    | _, _ => false
    end in
  match s with
  | String a rest =>
      match digit_val a with
      | Some a =>
          match rest with
          | String b rest' =>
              match digit_val b with
              | Some b => if at_stop rest' then Some (10 * a + b, rest')%Z else None
              | None => if at_stop rest then Some (a, rest) else None
              end
          | EmptyString => if at_stop rest then Some (a, rest) else None
          end
      | None => None
      end
  | EmptyString => None
  end.

Definition skip (c : ascii) (s : string) : option string :=
  match s with
  | String c' rest => if Ascii.eqb c c' then Some rest else None
  | EmptyString => None
  end.

(** Directive [%d] at the end of the text: one or two digits, or a space
    and a digit from 1 to 9. *)
Definition parse_d (s : string) : option (Z * string) :=
  match s with
  | String c (String b EmptyString) =>
      if Ascii.eqb c " " then
        match digit_val b with
        | Some b => if (1 <=? b)%Z then Some (b, EmptyString) else None
        | None => None
        end
      else parse_1_2 None s
  | _ => parse_1_2 None s
  end.

(** [datetime.strptime(s, "%Y-%m-%d")] on texts of ASCII characters;
    [None] stands for [ValueError]. *)
Definition strptime_ymd (s : string) : option datetime :=
  '(y, s1) ← parse_Y s;
  s2 ← skip "-" s1;
  '(m, s3) ← parse_1_2 (Some "-"%char) s2;
  s4 ← skip "-" s3;
  '(d, s5) ← parse_d s4;
  if fecha_valida y m d then Some {| year := y; month := m; day := d |}
  else None.




End Fecha.




(** ** Data access layer *)

Definition cien : Qc := Qc_of_Z 100.

Section Acceso.
(** [datetime.strptime(_, "%Y-%m-%d")]: [None] when it raises. *)
Variable strptime : string -> option datetime.

Definition insertar_ingreso (db : DB) (fecha concepto : string)
    (valor_total porc_necesidades porc_deseos porc_ahorro : Qc) : option DB :=
  fecha_obj ← strptime fecha;
  let anio := year fecha_obj in
  let mes := month fecha_obj in
  let monto_necesidades := (valor_total * (porc_necesidades / cien))%Qc in
  let monto_deseos := (valor_total * (porc_deseos / cien))%Qc in
  let monto_ahorro := (valor_total * (porc_ahorro / cien))%Qc in
  Some {| ingresos :=
            sql_insert (ingresos db) (fun k =>
              {| id_ingreso := k; ing_fecha := fecha; ing_anio := anio;
                 ing_mes := mes; ing_concepto := concepto;
                 valor_total := valor_total;
                 porc_necesidades := porc_necesidades;
                 porc_deseos := porc_deseos;
                 porc_ahorro := porc_ahorro;
                 monto_necesidades := monto_necesidades;
                 monto_deseos := monto_deseos;
                 monto_ahorro := monto_ahorro |});
          gastos := gastos db |}.

Definition insertar_gasto (db : DB) (fecha categoria concepto : string)
    (valor : Qc) : option DB :=
  fecha_obj ← strptime fecha;
  let anio := year fecha_obj in
  let mes := month fecha_obj in
  Some {| ingresos := ingresos db;
          gastos :=
            sql_insert (gastos db) (fun k =>
              {| id_gasto := k; gas_fecha := fecha; gas_anio := anio;
                 gas_mes := mes; categoria := categoria;
                 gas_concepto := concepto; valor := valor |}) |}.

(** The writes the application performs on the store. *)
Inductive Op : Type :=
| OpInsertarIngreso (fecha concepto : string) (valor_total pn pd pa : Qc)
| OpInsertarGasto (fecha categoria concepto : string) (valor : Qc)
| OpEliminarIngreso (id : Z)
| OpEliminarGasto (id : Z).

(** One write; a call that raises leaves the store as it was. *)
Definition ejecutar (db : DB) (op : Op) : DB :=
  match op with
  | OpInsertarIngreso f c v pn pd pa =>
      default db (insertar_ingreso db f c v pn pd pa)
  | OpInsertarGasto f cat c v => default db (insertar_gasto db f cat c v)
  | OpEliminarIngreso id => eliminar_ingreso db id
  | OpEliminarGasto id => eliminar_gasto db id
  end.

Definition ejecutar_todas (db : DB) (ops : list Op) : DB :=
  foldl ejecutar db ops.

End Acceso.

(** The keys of the rows of a table. *)
Definition rowids {R : Type} `{Fila R} (l : list R) : list Z := rowid <$> l.

(** An income key at or below the counter that no row carries. *)
Definition retirado (id : Z) (db : DB) : Prop :=
  (id ∉ rowids (filas (ingresos db))) /\ (id <= secuencia (ingresos db))%Z.

(** ** Period summarizer *)

(** A dictionary with the three bucket names as keys. *)
Record PorBucket : Type := {
  de_necesidades : Qc;
  de_deseos : Qc;
  de_ahorro : Qc
}.

Definition lookup_bucket (d : PorBucket) (b : Bucket) : Qc :=
  match b with
  | Necesidades => de_necesidades d
  | Deseos => de_deseos d
  | Ahorro => de_ahorro d
  end.

Record Resumen : Type := {
  presupuesto : PorBucket;
  gastado : PorBucket;
  disponible : PorBucket
}.

(** [gastos[gastos["bucket"] == b]["valor"].sum()] *)
Definition gastado_en (b : Bucket) (gs : list Gasto) : Qc :=
  sum_col valor
    (List.filter (fun g => bool_decide (clasificar_bucket (categoria g) = b)) gs).

Definition resumen_buckets (db : DB) (anio mes : Z) : Resumen :=
  let ingresos := obtener_ingresos db (Some anio) (Some mes) in
  let gastos := obtener_gastos db (Some anio) (Some mes) in
  let presupuesto :=
    {| de_necesidades :=
         if negb (empty ingresos) then sum_col monto_necesidades ingresos else Q2Qc 0;
       de_deseos :=
         if negb (empty ingresos) then sum_col monto_deseos ingresos else Q2Qc 0;
       de_ahorro :=
         if negb (empty ingresos) then sum_col monto_ahorro ingresos else Q2Qc 0 |} in
  let gastado0 :=
    {| de_necesidades := Q2Qc 0; de_deseos := Q2Qc 0; de_ahorro := Q2Qc 0 |} in
  let gastado :=
    if negb (empty gastos) then
      {| de_necesidades := gastado_en Necesidades gastos;
         de_deseos := gastado_en Deseos gastos;
         de_ahorro := Q2Qc 0 |}
    else gastado0 in
  let disponible :=
    {| de_necesidades := (de_necesidades presupuesto - de_necesidades gastado)%Qc;
       de_deseos := (de_deseos presupuesto - de_deseos gastado)%Qc;
       de_ahorro := de_ahorro presupuesto |} in
  {| presupuesto := presupuesto; gastado := gastado; disponible := disponible |}.

(** ** Balance figures of the presentation handlers *)

(** Tab "Analisis General": [saldo_neto]. *)
Definition saldo_neto (db : DB) (anio_seleccionado mes_seleccionado : Z) : Qc :=
  let ingresos_periodo :=
    obtener_ingresos db (Some anio_seleccionado) (Some mes_seleccionado) in
  let gastos_periodo :=
    obtener_gastos db (Some anio_seleccionado) (Some mes_seleccionado) in
  let total_ingresos :=
    if negb (empty ingresos_periodo) then sum_col valor_total ingresos_periodo
    else Q2Qc 0 in
  let total_gastos :=
    if negb (empty gastos_periodo) then sum_col valor gastos_periodo
    else Q2Qc 0 in
  let total_ahorro :=
    if negb (empty ingresos_periodo) then sum_col monto_ahorro ingresos_periodo
    else Q2Qc 0 in
  (total_ingresos - total_gastos - total_ahorro)%Qc.

(** Expense form, before saving: [saldo_cuenta]. *)
Definition saldo_cuenta (db : DB) (anio_gasto mes_gasto : Z) : Qc :=
  let total_ingresos :=
    sum_col valor_total (obtener_ingresos db (Some anio_gasto) (Some mes_gasto)) in
  let total_gastos :=
    sum_col valor (obtener_gastos db (Some anio_gasto) (Some mes_gasto)) in
  let total_ahorro :=
    sum_col monto_ahorro (obtener_ingresos db (Some anio_gasto) (Some mes_gasto)) in
  (total_ingresos - total_gastos - total_ahorro)%Qc.

(** Expense form, after [insertar_gasto]: [saldo_cuenta_post], evaluated on
    the store that holds the new expense. *)
Definition saldo_cuenta_post (db : DB) (anio_gasto mes_gasto : Z) : Qc :=
  let total_ingresos_post :=
    sum_col valor_total (obtener_ingresos db (Some anio_gasto) (Some mes_gasto)) in
  let total_gastos_post :=
    sum_col valor (obtener_gastos db (Some anio_gasto) (Some mes_gasto)) in
  (total_ingresos_post - total_gastos_post)%Qc.

(** Net balance in the words of the specification: total income amount
    minus total expense amount minus total savings amount of the period. *)
Definition net_balance (db : DB) (a m : Z) : Qc :=
  (sum_col valor_total (del_periodo a m (filas (ingresos db)))
   - sum_col valor (del_periodo a m (filas (gastos db)))
   - sum_col monto_ahorro (del_periodo a m (filas (ingresos db))))%Qc.

(** Sum of a sequence of amounts, in the words of the specification. *)
Definition suma (xs : list Qc) : Qc := foldl Qcplus (Q2Qc 0) xs.

(** The expenses among [gs] whose category the classifier puts in bucket
    [b]. *)
Definition del_bucket (b : Bucket) (gs : list Gasto) : list Gasto :=
  filter (fun g => clasificar_bucket (categoria g) = b) gs.

(** ** The scenario of the specification

    Income of 1000 on 2024-03-01 split 80/10/10, then an expense of 150 in
    category "Mercado" on 2024-03-05. *)

Definition escenario_ingreso : option DB :=
  insertar_ingreso Fecha.strptime_ymd db_vacia "2024-03-01" "Salary"
    (Qc_of_Z 1000) (Qc_of_Z 80) (Qc_of_Z 10) (Qc_of_Z 10).

Definition escenario : option DB :=
  db ← escenario_ingreso;
  insertar_gasto Fecha.strptime_ymd db "2024-03-05" "Mercado" "Market"
    (Qc_of_Z 150).

Definition db_escenario : DB := default db_vacia escenario.

(** Three incomes whose dates are written with and without zero padding;
    [strptime] accepts both forms. *)
Definition db_fechas : DB :=
  ejecutar_todas Fecha.strptime_ymd db_vacia
    [OpInsertarIngreso "2024-03-01" "a" (Qc_of_Z 1) (Qc_of_Z 80) (Qc_of_Z 10) (Qc_of_Z 10);
     OpInsertarIngreso "2024-10-05" "b" (Qc_of_Z 1) (Qc_of_Z 80) (Qc_of_Z 10) (Qc_of_Z 10);
     OpInsertarIngreso "2024-3-9" "c" (Qc_of_Z 1) (Qc_of_Z 80) (Qc_of_Z 10) (Qc_of_Z 10);
     OpInsertarGasto "2023-12-31" "Deseos" "d" (Qc_of_Z 1)].

(** ** The derived amounts in binary64

    The three products of [insertar_ingreso] as Python evaluates them, on
    IEEE 754 double precision numbers. *)

Module Binary64.

Definition montos (valor_total porc_necesidades porc_deseos porc_ahorro : float)
  : float * float * float :=
  (valor_total * (porc_necesidades / 100),
   valor_total * (porc_deseos / 100),
   valor_total * (porc_ahorro / 100))%float.

Definition suma_montos (valor_total pn pd pa : float) : float :=
  let '(mn, md, ma) := montos valor_total pn pd pa in (mn + md + ma)%float.

(** The double nearest to one tenth. *)
Definition un_decimo : float := 0x1.999999999999ap-4%float.

(** The number a double stands for.  Infinities and NaN, which the bounded
    inputs of the forms never hold, are read as 0. *)
Definition racional (x : float) : Qc :=
  match Prim2SF x with
  | S754_finite s m e =>
      Q2Qc ((if s then - (Z.pos m # 1) else (Z.pos m # 1)) * Qpower (2 # 1) e)
  | _ => Q2Qc 0
  end.

End Binary64.

(** ** Key discipline of the tables *)

(** The keys of a table grow with the rows, are positive and never exceed
    the AUTOINCREMENT counter. *)
Definition tabla_ok {R : Type} `{Fila R} (t : Tabla R) : Prop :=
  StronglySorted Z.lt (rowids (filas t))
  /\ Forall (fun k => (0 < k <= secuencia t)%Z) (rowids (filas t)).

Definition db_ok (db : DB) : Prop :=
  tabla_ok (ingresos db) /\ tabla_ok (gastos db).

(** The summary as a function of the rows of the period. *)
Definition resumen_de (ing : list Ingreso) (gas : list Gasto) : Resumen :=
  let p := {| de_necesidades := sum_col monto_necesidades ing;
              de_deseos := sum_col monto_deseos ing;
              de_ahorro := sum_col monto_ahorro ing |} in
  let g := {| de_necesidades := gastado_en Necesidades gas;
              de_deseos := gastado_en Deseos gas;
              de_ahorro := Q2Qc 0 |} in
  {| presupuesto := p;
     gastado := g;
     disponible :=
       {| de_necesidades := (de_necesidades p - de_necesidades g)%Qc;
          de_deseos := (de_deseos p - de_deseos g)%Qc;
          de_ahorro := de_ahorro p |} |}.

(** ** Presentation handlers *)

(** Truth value of a [str]: the empty text is false. *)
Definition no_vacio (s : string) : bool :=
  match s with EmptyString => false | String _ _ => true end.

(** What a form reports: [st.success] with its figures, or [st.error]. *)
Inductive Aviso (A : Type) : Type :=
| Guardado (x : A)
| Rechazado.
Arguments Guardado {A} _.
Arguments Rechazado {A}.

Section Formularios.
Variable strptime : string -> option datetime.

(** Submit of the expense form; the result is the store and the message,
    [None] when the insert raises. *)
Definition guardar_gasto (db : DB) (fecha_gasto : datetime)
    (categoria_gasto concepto_gasto : string) (valor_gasto : Qc)
    : option (DB * Aviso (Resumen * Qc)) :=
  let anio_gasto := year fecha_gasto in
  let mes_gasto := month fecha_gasto in
  if no_vacio concepto_gasto && bool_decide (Q2Qc 0 < valor_gasto)%Qc then
    db' ← insertar_gasto strptime db (Fecha.strftime_ymd fecha_gasto)
            categoria_gasto concepto_gasto valor_gasto;
    let resumen_post := resumen_buckets db' anio_gasto mes_gasto in
    Some (db', Guardado (resumen_post, saldo_cuenta_post db' anio_gasto mes_gasto))
  else Some (db, Rechazado).

(** Submit of the income form.  The three percentages are the doubles the
    number inputs hold: their sum is the sum of the machine, rounded after
    each addition, and that sum is what is compared with 100.  The store
    receives the numbers the doubles stand for. *)
Definition guardar_ingreso (db : DB) (fecha_ingreso : datetime)
    (concepto_ingreso : string) (valor_ingreso : Qc)
    (porc_necesidades porc_deseos porc_ahorro : float)
    : option (DB * Aviso unit) :=
  let suma_porcentajes := (porc_necesidades + porc_deseos + porc_ahorro)%float in
  if no_vacio concepto_ingreso && bool_decide (Q2Qc 0 < valor_ingreso)%Qc
     && PrimFloat.eqb suma_porcentajes 100
  then
    db' ← insertar_ingreso strptime db (Fecha.strftime_ymd fecha_ingreso)
            concepto_ingreso valor_ingreso
            (Binary64.racional porc_necesidades)
            (Binary64.racional porc_deseos)
            (Binary64.racional porc_ahorro);
    Some (db', Guardado ())
  else Some (db, Rechazado).

(** What the user can do to the store through the three tabs. *)
Inductive Accion : Type :=
| AGuardarIngreso (fecha : datetime) (concepto : string) (valor : Qc)
    (pn pd pa : float)
| AGuardarGasto (fecha : datetime) (categoria concepto : string) (valor : Qc)
| AEliminarIngreso (id : Z)
| AEliminarGasto (id : Z).

(** One action; when the call raises the store stays as it was. *)
Definition actuar (db : DB) (a : Accion) : DB :=
  match a with
  | AGuardarIngreso f c v pn pd pa =>
      from_option fst db (guardar_ingreso db f c v pn pd pa)
  | AGuardarGasto f cat c v => from_option fst db (guardar_gasto db f cat c v)
  | AEliminarIngreso id => default db (llamar_eliminar_ingreso db id)
  | AEliminarGasto id => default db (llamar_eliminar_gasto db id)
  end.

Definition actuar_todas (db : DB) (acs : list Accion) : DB :=
  foldl actuar db acs.

End Formularios.

(** Rows as the forms let them through: a concept, a positive amount
    and, for incomes, percentages that are doubles whose sum, as the
    machine adds them, is 100. *)
Definition ingreso_valido (r : Ingreso) : Prop :=
  (exists pn pd pa : float,
      porc_necesidades r = Binary64.racional pn
      /\ porc_deseos r = Binary64.racional pd
      /\ porc_ahorro r = Binary64.racional pa
      /\ PrimFloat.eqb (pn + pd + pa) 100 = true)
  /\ (Q2Qc 0 < valor_total r)%Qc
  /\ no_vacio (ing_concepto r) = true.

Definition gasto_valido (g : Gasto) : Prop :=
  (Q2Qc 0 < valor g)%Qc /\ no_vacio (gas_concepto g) = true.

(** Tab "Eliminar Registros": the keys offered by the income selector. *)
Definition opciones_eliminar_ingreso (db : DB) : list Z :=
  id_ingreso <$> obtener_ingresos db None None.

(** [ingresos_todos[ingresos_todos['id_ingreso']==x]['concepto'].values[0]]
    of the selector's label; [None] stands for [IndexError]. *)
Definition concepto_de_ingreso (ingresos_todos : list Ingreso) (x : Z)
    : option string :=
  match List.filter (fun r => (id_ingreso r =? x)%Z) ingresos_todos with
  | r :: _ => Some (ing_concepto r)
  | [] => None
  end.

Definition opciones_eliminar_gasto (db : DB) : list Z :=
  id_gasto <$> obtener_gastos db None None.

Definition concepto_de_gasto (gastos_todos : list Gasto) (x : Z)
    : option string :=
  match List.filter (fun g => (id_gasto g =? x)%Z) gastos_todos with
  | g :: _ => Some (gas_concepto g)
  | [] => None
  end.


(** * Properties *)

(** ** Strings *)

Module StrFacts.
Import Str.

Lemma isspace_lower_char (c : ascii) : isspace (lower_char c) = isspace c.
Proof. destruct c as [[] [] [] [] [] [] [] []]; reflexivity. Qed.



Lemma lstrip_blank_app (l s : string) :
  blank l = true -> lstrip (l ++ s) = lstrip s.
Proof.
  induction l as [|c l IH]; simpl; [reflexivity |].
  intros [Hc Hl]%andb_true_iff. rewrite Hc. auto.
Qed.

Lemma lstrip_first (s : string) (c : ascii) :
  first_char s = Some c -> isspace c = false -> lstrip s = s.
Proof. destruct s; simpl; [discriminate |]. intros [= ->] ->. reflexivity. Qed.

Lemma rstrip_blank (r : string) : blank r = true -> rstrip r = "".
Proof.
  induction r as [|c r IH]; simpl; [reflexivity |].
  intros [Hc Hr]%andb_true_iff. rewrite (IH Hr), Hc. reflexivity.
Qed.


Lemma rstrip_app_blank (s r : string) (c : ascii) :
  last_char s = Some c -> isspace c = false -> blank r = true ->
  rstrip (s ++ r) = s.
Proof.
  intros Hl Hc Hr. induction s as [|a s IH]; [discriminate |].
  destruct s as [|b s].
  - simpl in *. injection Hl as ->. rewrite (rstrip_blank r Hr), Hc. reflexivity.
  - specialize (IH Hl).
    change (rstrip (String a (String b s) ++ r))
      with (match rstrip (String b s ++ r) with
            | "" => if isspace a then "" else String a ""
            | t => String a t
            end).
    rewrite IH. reflexivity.
Qed.

(** Stripping removes exactly a blank prefix and a blank suffix. *)
Lemma lstrip_split (s : string) :
  exists l, s = l ++ lstrip s /\ blank l = true.
Proof.
  induction s as [|c s (l & Hs & Hl)]; [exists ""; auto |].
  simpl. destruct (isspace c) eqn:Hc.
  - exists (String c l). simpl. rewrite Hc, Hl, <- Hs. auto.
  - exists "". auto.
Qed.

Lemma rstrip_split (s : string) :
  exists r, s = rstrip s ++ r /\ blank r = true.
Proof.
  induction s as [|c s (r & Hs & Hr)]; [exists ""; auto |].
  simpl. destruct (rstrip s) as [|b t] eqn:Ht.
  - simpl in Hs. subst s. destruct (isspace c) eqn:Hc.
    + exists (String c r). simpl. rewrite Hc, Hr. auto.
    + exists r. auto.
  - exists r. simpl in *. rewrite <- Hs. auto.
Qed.

Lemma strip_split (s : string) :
  exists l r, s = l ++ strip s ++ r /\ blank l = true /\ blank r = true.
Proof.
  destruct (lstrip_split s) as (l & Hs & Hl).
  destruct (rstrip_split (lstrip s)) as (r & Hs' & Hr).
  exists l, r. unfold strip. rewrite <- Hs', <- Hs. auto.
Qed.

Lemma strip_sandwich (l body r : string) (c c' : ascii) :
  blank l = true -> blank r = true ->
  first_char body = Some c -> isspace c = false ->
  last_char body = Some c' -> isspace c' = false ->
  strip (l ++ body ++ r) = body.
Proof.
  intros Hl Hr Hf Hc Hla Hc'. unfold strip.
  rewrite (lstrip_blank_app l _ Hl).
  rewrite (lstrip_first (body ++ r) c).
  - eapply rstrip_app_blank; eauto.
  - destruct body; [discriminate | exact Hf].
  - exact Hc.
Qed.

Lemma first_char_lower (s : string) :
  first_char (lower s) = lower_char <$> first_char s.
Proof. destruct s; reflexivity. Qed.

Lemma last_char_lower (s : string) :
  last_char (lower s) = lower_char <$> last_char s.
Proof.
  induction s as [|a s IH]; [reflexivity |].
  destruct s as [|b s]; [reflexivity |]. exact IH.
Qed.

(** A text that equals, case ignored, a label with no blank at either
    end is what [strip] leaves of it and its blank surroundings. *)
Lemma strip_lower_sandwich (l body r low : string) (c c' : ascii) :
  blank l = true -> blank r = true -> lower body = low ->
  first_char low = Some c -> isspace c = false ->
  last_char low = Some c' -> isspace c' = false ->
  strip (l ++ body ++ r) = body.
Proof.
  intros Hl Hr <- Hf Hc Hla Hc'.
  rewrite first_char_lower in Hf. rewrite last_char_lower in Hla.
  destruct (first_char body) as [a|] eqn:Ha; [|discriminate].
  destruct (last_char body) as [b|] eqn:Hb; [|discriminate].
  simpl in Hf, Hla. injection Hf as <-. injection Hla as <-.
  rewrite isspace_lower_char in Hc, Hc'.
  eapply strip_sandwich; eauto.
Qed.

End StrFacts.

(** ** Bucket classifier *)

Lemma clasificar_lower_strip (label : string) (categoria : string) (c c' : ascii) :
  Str.first_char (Str.lower label) = Some c -> Str.isspace c = false ->
  Str.last_char (Str.lower label) = Some c' -> Str.isspace c' = false ->
  matches_label label categoria <->
  Str.lower (Str.strip categoria) = Str.lower label.
Proof.
  intros Hf Hc Hl Hc'. split.
  - intros (l & body & r & -> & Hbl & Hbr & Heq).
    rewrite (StrFacts.strip_lower_sandwich l body r _ c c' Hbl Hbr Heq); auto.
  - intros Heq. destruct (StrFacts.strip_split categoria) as (l & r & Hs & Hbl & Hbr).
    exists l, (Str.strip categoria), r. auto.
Qed.

(** C4. [clasificar_bucket] is total; it answers [Deseos] exactly for the
    texts that, surrounding whitespace removed and case ignored, equal
    "Deseos", [Ahorro] exactly for those that equal "Ahorro", and
    [Necesidades] for every other text; the four examples of the
    specification evaluate accordingly. *)
Theorem clasificar_bucket_spec :
  (forall categoria,
      (clasificar_bucket categoria = Deseos <-> matches_label "Deseos" categoria)
      /\ (clasificar_bucket categoria = Ahorro <-> matches_label "Ahorro" categoria)
      /\ (clasificar_bucket categoria = Necesidades <->
          ~ matches_label "Deseos" categoria /\ ~ matches_label "Ahorro" categoria))
  /\ clasificar_bucket "Deseos" = Deseos
  /\ clasificar_bucket "  AHORRO " = Ahorro
  /\ clasificar_bucket "Mercado" = Necesidades
  /\ clasificar_bucket "anything-else" = Necesidades.
Proof.
  split; [|repeat split; reflexivity].
  intros categoria.
  rewrite (clasificar_lower_strip "Deseos" categoria "d" "s") by reflexivity.
  rewrite (clasificar_lower_strip "Ahorro" categoria "a" "o") by reflexivity.
  unfold clasificar_bucket. simpl Str.lower at 2 4 6 8.
  destruct (String.eqb_spec (Str.lower (Str.strip categoria)) "deseos") as [E1|E1];
    destruct (String.eqb_spec (Str.lower (Str.strip categoria)) "ahorro") as [E2|E2];
    try (rewrite E1 in E2; discriminate);
    repeat split; intros; try discriminate; try congruence; tauto.
Qed.

(** ** Text order *)

Module TextOrder.

Lemma ascii_compare_refl (a : ascii) : Ascii.compare a a = Eq.
Proof. apply N.compare_refl. Qed.

Lemma ascii_compare_lt_trans (a b c : ascii) :
  Ascii.compare a b = Lt -> Ascii.compare b c = Lt -> Ascii.compare a c = Lt.
Proof.
  unfold Ascii.compare. rewrite !N.compare_lt_iff. apply N.lt_trans.
Qed.

Lemma compare_refl (s : string) : String.compare s s = Eq.
Proof.
  induction s as [|a s IH]; simpl; [reflexivity |].
  now rewrite ascii_compare_refl.
Qed.

Lemma compare_lt_trans (s t u : string) :
  String.compare s t = Lt -> String.compare t u = Lt -> String.compare s u = Lt.
Proof.
  revert t u. induction s as [|a s IH]; intros [|b t] [|c u]; simpl;
    try discriminate; try reflexivity.
  destruct (Ascii.compare a b) eqn:Hab; try discriminate;
    destruct (Ascii.compare b c) eqn:Hbc; try discriminate; intros H1 H2.
  - apply Ascii.compare_eq_iff in Hab, Hbc. subst.
    rewrite ascii_compare_refl. eauto.
  - apply Ascii.compare_eq_iff in Hab. subst. now rewrite Hbc.
  - apply Ascii.compare_eq_iff in Hbc. subst. now rewrite Hab.
  - now rewrite (ascii_compare_lt_trans a b c).
Qed.

Lemma leb_refl (s : string) : String.leb s s = true.
Proof. unfold String.leb. now rewrite compare_refl. Qed.

Lemma leb_trans (s t u : string) :
  String.leb s t = true -> String.leb t u = true -> String.leb s u = true.
Proof.
  unfold String.leb.
  destruct (String.compare s t) eqn:Hst; try discriminate;
    destruct (String.compare t u) eqn:Htu; try discriminate; intros _ _.
  - apply String.compare_eq_iff in Hst, Htu. subst. now rewrite compare_refl.
  - apply String.compare_eq_iff in Hst. subst. now rewrite Htu.
  - apply String.compare_eq_iff in Htu. subst. now rewrite Hst.
  - now rewrite (compare_lt_trans s t u).
Qed.



End TextOrder.

(** ** Tables and queries *)

Section TablaFacts.
Context {R : Type} `{Fila R}.

#[local] Instance fecha_desc_trans : Transitive (fecha_desc (R:=R)).
Proof. intros x y z Hxy Hyz. unfold fecha_desc in *. eapply TextOrder.leb_trans; eauto. Qed.

Lemma insert_desc_perm (r : R) (l : list R) : insert_desc r l ≡ₚ r :: l.
Proof.
  induction l as [|x l IH]; simpl; [reflexivity |].
  destruct (String.leb (fecha x) (fecha r)); [reflexivity |].
  rewrite IH. apply Permutation_swap.
Qed.

Lemma order_by_fecha_desc_perm (l : list R) : order_by_fecha_desc l ≡ₚ l.
Proof.
  induction l as [|x l IH]; simpl; [reflexivity |].
  rewrite insert_desc_perm. now rewrite IH.
Qed.



Lemma sum_col_perm (f : R -> Qc) (l l' : list R) :
  l ≡ₚ l' -> sum_col f l = sum_col f l'.
Proof.
  induction 1 as [|x l l' _ IH|x y l|l l' l'' _ IH1 _ IH2]; simpl.
  - reflexivity.
  - now rewrite IH.
  - ring.
  - now rewrite IH1.
Qed.



Lemma sum_col_empty (f : R -> Qc) (l : list R) :
  (if negb (empty l) then sum_col f l else Q2Qc 0) = sum_col f l.
Proof. destruct l; reflexivity. Qed.

Lemma read_sql_query_perm (t : Tabla R) (w : Where) :
  read_sql_query t w ≡ₚ List.filter (cumple w) (filas t).
Proof. apply order_by_fecha_desc_perm. Qed.


Lemma elem_of_read_sql_query (t : Tabla R) (w : Where) (r : R) :
  r ∈ read_sql_query t w <-> r ∈ filas t /\ cumple w r = true.
Proof.
  rewrite read_sql_query_perm, list_elem_of_In, List.filter_In.
  now rewrite <- list_elem_of_In.
Qed.

Lemma periodo_perm (t : Tabla R) (a m : Z) :
  read_sql_query t (armar_where (Some a) (Some m)) ≡ₚ del_periodo a m (filas t).
Proof. apply read_sql_query_perm. Qed.

End TablaFacts.

(** ** Period summary and balance *)

Lemma filter_perm {A : Type} (p : A -> bool) (l l' : list A) :
  l ≡ₚ l' -> List.filter p l ≡ₚ List.filter p l'.
Proof.
  induction 1 as [|x l l' _ IH|x y l|l l' l'' _ IH1 _ IH2]; simpl.
  - reflexivity.
  - destruct (p x); [now constructor | exact IH].
  - destruct (p x), (p y); try reflexivity. apply Permutation_swap.
  - now rewrite IH1.
Qed.

Lemma gastado_en_perm (b : Bucket) (gs gs' : list Gasto) :
  gs ≡ₚ gs' -> gastado_en b gs = gastado_en b gs'.
Proof. intros Hp. unfold gastado_en. now apply sum_col_perm, filter_perm. Qed.

Lemma Qc_concrete (x y : Qc) : (this x == this y)%Q -> x = y.
Proof. apply Qc_is_canon. Qed.

Ltac qc_compute := apply Qc_concrete; vm_compute; reflexivity.

Lemma cien_neq_0 : cien <> Q2Qc 0.
Proof. intros Heq. apply (f_equal this) in Heq. vm_compute in Heq. discriminate. Qed.

Lemma saldo_neto_net_balance (db : DB) (a m : Z) :
  saldo_neto db a m = net_balance db a m.
Proof.
  unfold saldo_neto, net_balance, obtener_ingresos, obtener_gastos.
  rewrite !sum_col_empty.
  now rewrite !(sum_col_perm _ _ _ (periodo_perm _ a m)).
Qed.

Lemma saldo_cuenta_net_balance (db : DB) (a m : Z) :
  saldo_cuenta db a m = net_balance db a m.
Proof.
  unfold saldo_cuenta, net_balance, obtener_ingresos, obtener_gastos.
  now rewrite !(sum_col_perm _ _ _ (periodo_perm _ a m)).
Qed.

Lemma saldo_cuenta_post_net_balance (db : DB) (a m : Z) :
  saldo_cuenta_post db a m =
    (net_balance db a m
     + sum_col monto_ahorro (del_periodo a m (filas (ingresos db))))%Qc.
Proof.
  unfold saldo_cuenta_post, net_balance, obtener_ingresos, obtener_gastos.
  rewrite !(sum_col_perm _ _ _ (periodo_perm _ a m)). ring.
Qed.

(** Both writes of the scenario succeed. *)
Remark escenario_ok : escenario = Some db_escenario.
Proof. reflexivity. Qed.

(** C1. The balance of tab "Analisis General" ([saldo_neto]) and the one
    shown before an expense is saved ([saldo_cuenta]) are income minus
    expenses minus savings for every store and period, but the one
    reported after saving ([saldo_cuenta_post]) is income minus expenses
    only, the net balance plus the period's savings: in the scenario of the
    specification it is 850 where the net balance is 750. *)
Theorem saldo_cuenta_post_keeps_ahorro :
  (forall db a m,
      saldo_neto db a m = net_balance db a m
      /\ saldo_cuenta db a m = net_balance db a m
      /\ saldo_cuenta_post db a m =
           (net_balance db a m
            + sum_col monto_ahorro (del_periodo a m (filas (ingresos db))))%Qc)
  /\ net_balance db_escenario 2024 3 = Qc_of_Z 750
  /\ saldo_cuenta_post db_escenario 2024 3 = Qc_of_Z 850
  /\ saldo_cuenta_post db_escenario 2024 3 <> net_balance db_escenario 2024 3.
Proof.
  split.
  { intros db a m. split; [apply saldo_neto_net_balance |].
    split; [apply saldo_cuenta_net_balance |].
    apply saldo_cuenta_post_net_balance. }
  assert (Hn : net_balance db_escenario 2024 3 = Qc_of_Z 750) by qc_compute.
  assert (Hp : saldo_cuenta_post db_escenario 2024 3 = Qc_of_Z 850) by qc_compute.
  repeat split; [exact Hn | exact Hp |].
  rewrite Hn, Hp. intros Heq. apply (f_equal this) in Heq.
  vm_compute in Heq. discriminate.
Qed.








(** In the scenario the sums of the specification are these amounts. *)
Remark sumas_escenario :
  suma (monto_necesidades <$> del_periodo 2024 3 (filas (ingresos db_escenario)))
  = Qc_of_Z 800
  /\ suma (valor <$> del_bucket Necesidades
                      (del_periodo 2024 3 (filas (gastos db_escenario))))
     = Qc_of_Z 150
  /\ suma (valor <$> del_bucket Deseos
                      (del_periodo 2024 3 (filas (gastos db_escenario))))
     = Qc_of_Z 0.
Proof. repeat split; apply Qc_is_canon; vm_compute; reflexivity. Qed.

(** ** Writes *)

Section AccesoFacts.
Variable strptime : string -> option datetime.

Lemma insertar_gasto_Some db fecha cat concepto v d :
  strptime fecha = Some d ->
  exists db',
    insertar_gasto strptime db fecha cat concepto v = Some db'
    /\ ingresos db' = ingresos db
    /\ filas (gastos db') =
         (filas (gastos db)
          ++ [{| id_gasto := next_rowid (gastos db); gas_fecha := fecha;
                 gas_anio := year d; gas_mes := month d; categoria := cat;
                 gas_concepto := concepto; valor := v |}])%list
    /\ secuencia (gastos db') = next_rowid (gastos db).
Proof.
  intros Hd. unfold insertar_gasto. rewrite Hd. simpl.
  eexists. repeat split.
Qed.

Lemma insertar_ingreso_Some db fecha concepto T pn pd pa d :
  strptime fecha = Some d ->
  exists db',
    insertar_ingreso strptime db fecha concepto T pn pd pa = Some db'
    /\ gastos db' = gastos db
    /\ filas (ingresos db') =
         (filas (ingresos db)
          ++ [{| id_ingreso := next_rowid (ingresos db); ing_fecha := fecha;
                 ing_anio := year d; ing_mes := month d;
                 ing_concepto := concepto; valor_total := T;
                 porc_necesidades := pn; porc_deseos := pd; porc_ahorro := pa;
                 monto_necesidades := (T * (pn / cien))%Qc;
                 monto_deseos := (T * (pd / cien))%Qc;
                 monto_ahorro := (T * (pa / cien))%Qc |}])%list
    /\ secuencia (ingresos db') = next_rowid (ingresos db).
Proof.
  intros Hd. unfold insertar_ingreso. rewrite Hd. simpl.
  eexists. repeat split.
Qed.

Lemma next_rowid_gt_secuencia {R : Type} `{Fila R} (t : Tabla R) :
  (secuencia t < next_rowid t)%Z.
Proof. unfold next_rowid. lia. Qed.

Lemma next_rowid_fresh {R : Type} `{Fila R} (t : Tabla R) :
  next_rowid t ∉ rowids (filas t).
Proof.
  unfold next_rowid, rowids.
  assert (Hmax : forall l : list R, Forall (fun k => (k <= max_rowid l)%Z) (rowid <$> l)).
  { induction l as [|x l IH]; simpl; constructor; [lia |].
    eapply Forall_impl; [exact IH |]. simpl. intros; lia. }
  intros Hin. specialize (Hmax (filas t)).
  rewrite Forall_forall in Hmax. apply Hmax in Hin. lia.
Qed.

Lemma filter_rowid_id {R : Type} `{Fila R} (l : list R) (k : Z) :
  k ∉ rowids l -> filter (fun r => rowid r <> k) l = l.
Proof.
  unfold rowids. induction l as [|x l IH]; [reflexivity |].
  rewrite fmap_cons, not_elem_of_cons. intros [Hx Hl].
  rewrite filter_cons_True by congruence. now rewrite IH.
Qed.

Lemma sql_delete_absent {R : Type} `{Fila R} (t : Tabla R) (k : Z) :
  k ∉ rowids (filas t) -> sql_delete t k = t.
Proof.
  intros Hk. destruct t as [l s]. unfold sql_delete. simpl in *.
  now rewrite filter_rowid_id.
Qed.

Lemma sql_delete_gone {R : Type} `{Fila R} (t : Tabla R) (k : Z) :
  k ∉ rowids (filas (sql_delete t k)).
Proof.
  unfold rowids. simpl. rewrite list_elem_of_fmap.
  intros (r & -> & Hr). apply list_elem_of_filter in Hr. tauto.
Qed.

Lemma sql_delete_subset {R : Type} `{Fila R} (t : Tabla R) (k j : Z) :
  j ∈ rowids (filas (sql_delete t k)) -> j ∈ rowids (filas t).
Proof.
  unfold rowids. simpl. rewrite !list_elem_of_fmap.
  intros (r & -> & Hr). apply list_elem_of_filter in Hr. exists r. tauto.
Qed.

Lemma rowids_read_sql_query {R : Type} `{Fila R} (t : Tabla R) (w : Where) (k : Z) :
  k ∈ rowids (read_sql_query t w) -> k ∈ rowids (filas t).
Proof.
  unfold rowids. rewrite !list_elem_of_fmap.
  intros (r & -> & Hr). apply elem_of_read_sql_query in Hr. exists r. tauto.
Qed.

Lemma ejecutar_retirado (id : Z) (db : DB) (op : Op) :
  retirado id db -> retirado id (ejecutar strptime db op).
Proof.
  intros [Hout Hle]. destruct op as [f c v pn pd pa|f cat c v|k|k]; simpl.
  - destruct (strptime f) as [d|] eqn:Hd.
    + destruct (insertar_ingreso_Some db f c v pn pd pa d Hd)
        as (db' & -> & _ & Hf & Hs). simpl. split.
      * rewrite Hf. unfold rowids. rewrite fmap_app, elem_of_app.
        intros [Hin|Hin]; [exact (Hout Hin) |].
        apply list_elem_of_singleton in Hin. simpl in Hin.
        pose proof (next_rowid_gt_secuencia (ingresos db)). lia.
      * rewrite Hs. pose proof (next_rowid_gt_secuencia (ingresos db)). lia.
    + unfold insertar_ingreso. rewrite Hd. simpl. now split.
  - destruct (strptime f) as [d|] eqn:Hd.
    + destruct (insertar_gasto_Some db f cat c v d Hd)
        as (db' & -> & Hi & _). simpl. unfold retirado. now rewrite Hi.
    + unfold insertar_gasto. rewrite Hd. simpl. now split.
  - split; [|exact Hle].
    intros Hin. apply (sql_delete_subset (ingresos db) k id) in Hin.
    exact (Hout Hin).
  - now split.
Qed.

Lemma ejecutar_todas_retirado (id : Z) (ops : list Op) (db : DB) :
  retirado id db -> retirado id (ejecutar_todas strptime db ops).
Proof.
  revert db. induction ops as [|op ops IH]; intros db Hr; [exact Hr |].
  simpl. apply IH, ejecutar_retirado, Hr.
Qed.

End AccesoFacts.

(** ** Savings are never spent *)

Lemma resumen_ahorro (db : DB) (a m : Z) :
  de_ahorro (gastado (resumen_buckets db a m)) = Q2Qc 0
  /\ de_ahorro (disponible (resumen_buckets db a m))
     = de_ahorro (presupuesto (resumen_buckets db a m)).
Proof.
  split; [|reflexivity].
  unfold resumen_buckets. cbv zeta. cbn [gastado].
  destruct (negb (empty _)); reflexivity.
Qed.

Lemma presupuesto_ingresos (db db' : DB) (a m : Z) :
  ingresos db' = ingresos db ->
  presupuesto (resumen_buckets db' a m) = presupuesto (resumen_buckets db a m).
Proof.
  intros Hi. unfold resumen_buckets, obtener_ingresos. cbv zeta.
  cbn [presupuesto]. now rewrite Hi.
Qed.

(** C2. For every store and period the summary has nothing spent from
    savings and the whole savings budget available, however many expenses
    of the period are classified into the savings bucket; saving one more
    expense whose category classifies as [Ahorro] (such as "Ahorro") changes
    neither figure, for its own period or any other. *)
Theorem ahorro_never_spent (strptime : string -> option datetime) :
  (forall db a m,
      de_ahorro (gastado (resumen_buckets db a m)) = Q2Qc 0
      /\ de_ahorro (disponible (resumen_buckets db a m))
         = de_ahorro (presupuesto (resumen_buckets db a m)))
  /\ clasificar_bucket "Ahorro" = Ahorro
  /\ (forall db fecha cat concepto v d a m,
         strptime fecha = Some d ->
         clasificar_bucket cat = Ahorro ->
         exists db',
           insertar_gasto strptime db fecha cat concepto v = Some db'
           /\ de_ahorro (gastado (resumen_buckets db' a m))
              = de_ahorro (gastado (resumen_buckets db a m))
           /\ de_ahorro (disponible (resumen_buckets db' a m))
              = de_ahorro (disponible (resumen_buckets db a m))).
Proof.
  split; [exact resumen_ahorro |]. split; [reflexivity |].
  intros db fecha cat concepto v d a m Hd _.
  destruct (insertar_gasto_Some strptime db fecha cat concepto v d Hd)
    as (db' & Hins & Hi & _).
  exists db'. split; [exact Hins |].
  destruct (resumen_ahorro db a m) as [Hg Hdisp].
  destruct (resumen_ahorro db' a m) as [Hg' Hdisp'].
  split; [congruence |].
  rewrite Hdisp, Hdisp'. now rewrite (presupuesto_ingresos db db' a m Hi).
Qed.

Lemma ahorro_never_spent_witness :
  exists db',
    insertar_gasto Fecha.strptime_ymd db_escenario "2024-03-09" "Ahorro"
      "retiro" (Qc_of_Z 50) = Some db'
    /\ de_ahorro (gastado (resumen_buckets db' 2024 3))
       = de_ahorro (gastado (resumen_buckets db_escenario 2024 3))
    /\ de_ahorro (disponible (resumen_buckets db' 2024 3))
       = de_ahorro (disponible (resumen_buckets db_escenario 2024 3)).
Proof.
  apply (proj2 (proj2 (ahorro_never_spent Fecha.strptime_ymd)))
    with (d := {| year := 2024; month := 3; day := 9 |}); reflexivity.
Defined.

(** ** Derived amounts *)

(** Over exact rationals [insertar_ingreso] stores, for each bucket, the
    total amount times the percentage divided by 100, and when the three
    percentages add up to 100 the three stored amounts add up to the total
    amount.  On doubles the products and the sum are rounded: see
    [binary64_montos]. *)
Lemma insertar_ingreso_montos (strptime : string -> option datetime)
    (db : DB) (fecha concepto : string) (T pn pd pa : Qc) (d : datetime) :
  strptime fecha = Some d ->
  exists db' r,
    insertar_ingreso strptime db fecha concepto T pn pd pa = Some db'
    /\ filas (ingresos db') = (filas (ingresos db) ++ [r])%list
    /\ monto_necesidades r = (T * pn / cien)%Qc
    /\ monto_deseos r = (T * pd / cien)%Qc
    /\ monto_ahorro r = (T * pa / cien)%Qc
    /\ ((pn + pd + pa)%Qc = cien ->
        (monto_necesidades r + monto_deseos r + monto_ahorro r)%Qc = T).
Proof.
  intros Hd.
  destruct (insertar_ingreso_Some strptime db fecha concepto T pn pd pa d Hd)
    as (db' & Hins & _ & Hf & _).
  eexists db', _. split; [exact Hins |]. split; [exact Hf |].
  cbn [monto_necesidades monto_deseos monto_ahorro].
  pose proof cien_neq_0 as Hc.
  repeat split; try (field; exact Hc).
  intros Hsum.
  transitivity (T * ((pn + pd + pa) / cien))%Qc; [field; exact Hc |].
  rewrite Hsum. field. exact Hc.
Qed.

Lemma insertar_ingreso_montos_witness :
  exists db' r,
    insertar_ingreso Fecha.strptime_ymd db_vacia "2024-03-01" "Salary"
      (Qc_of_Z 1000) (Qc_of_Z 80) (Qc_of_Z 10) (Qc_of_Z 10) = Some db'
    /\ filas (ingresos db') = (filas (ingresos db_vacia) ++ [r])%list
    /\ (monto_necesidades r + monto_deseos r + monto_ahorro r)%Qc
       = Qc_of_Z 1000.
Proof.
  destruct (insertar_ingreso_montos Fecha.strptime_ymd db_vacia "2024-03-01"
              "Salary" (Qc_of_Z 1000) (Qc_of_Z 80) (Qc_of_Z 10) (Qc_of_Z 10)
              {| year := 2024; month := 3; day := 1 |} eq_refl)
    as (db' & r & Hins & Hf & _ & _ & _ & Hsum).
  exists db', r. split; [exact Hins |]. split; [exact Hf |].
  apply Hsum. apply Qc_is_canon. vm_compute. reflexivity.
Defined.

(** ** Round trip and deletion *)

(** C6. After [insertar_ingreso] the query for the year and month of the
    date returns a row that carries a key no earlier row has, the date,
    concept, total and percentages given and the amounts derived from
    them; after
    [eliminar_ingreso] no query, whatever its filter, returns a row with
    that key, and a key the counter had already reached stays absent
    after any further writes. *)
Theorem insertar_obtener_eliminar (strptime : string -> option datetime) :
  (forall db fecha concepto T pn pd pa d,
      strptime fecha = Some d ->
      exists db',
        insertar_ingreso strptime db fecha concepto T pn pd pa = Some db'
        /\ (next_rowid (ingresos db) ∉ rowids (filas (ingresos db)))
        /\ {| id_ingreso := next_rowid (ingresos db); ing_fecha := fecha;
              ing_anio := year d; ing_mes := month d;
              ing_concepto := concepto; valor_total := T;
              porc_necesidades := pn; porc_deseos := pd; porc_ahorro := pa;
              monto_necesidades := (T * (pn / cien))%Qc;
              monto_deseos := (T * (pd / cien))%Qc;
              monto_ahorro := (T * (pa / cien))%Qc |}
           ∈ obtener_ingresos db' (Some (year d)) (Some (month d)))
  /\ (forall db id a m,
         id ∉ rowids (obtener_ingresos (eliminar_ingreso db id) a m))
  /\ (forall db id ops a m,
         (id <= secuencia (ingresos db))%Z ->
         id ∉ rowids (obtener_ingresos
                        (ejecutar_todas strptime (eliminar_ingreso db id) ops)
                        a m)).
Proof.
  split; [|split].
  - intros db fecha concepto T pn pd pa d Hd.
    destruct (insertar_ingreso_Some strptime db fecha concepto T pn pd pa d Hd)
      as (db' & Hins & _ & Hf & _).
    exists db'. split; [exact Hins |].
    split; [apply next_rowid_fresh |].
    unfold obtener_ingresos. apply elem_of_read_sql_query. split.
    + rewrite Hf, elem_of_app. right. apply list_elem_of_singleton. reflexivity.
    + simpl. now rewrite !Z.eqb_refl.
  - intros db id a m Hin.
    apply rowids_read_sql_query in Hin.
    exact (sql_delete_gone (ingresos db) id Hin).
  - intros db id ops a m Hle Hin.
    apply rowids_read_sql_query in Hin.
    assert (Hr : retirado id (eliminar_ingreso db id)).
    { split; [apply (sql_delete_gone (ingresos db) id) | exact Hle]. }
    apply (ejecutar_todas_retirado strptime id ops) in Hr.
    exact (proj1 Hr Hin).
Qed.

Lemma insertar_obtener_eliminar_witness :
  (exists db',
      escenario_ingreso = Some db'
      /\ (1%Z ∉ rowids (filas (ingresos db_vacia)))
      /\ {| id_ingreso := 1; ing_fecha := "2024-03-01";
            ing_anio := 2024; ing_mes := 3;
            ing_concepto := "Salary"; valor_total := Qc_of_Z 1000;
            porc_necesidades := Qc_of_Z 80; porc_deseos := Qc_of_Z 10;
            porc_ahorro := Qc_of_Z 10;
            monto_necesidades := (Qc_of_Z 1000 * (Qc_of_Z 80 / cien))%Qc;
            monto_deseos := (Qc_of_Z 1000 * (Qc_of_Z 10 / cien))%Qc;
            monto_ahorro := (Qc_of_Z 1000 * (Qc_of_Z 10 / cien))%Qc |}
         ∈ obtener_ingresos db' (Some 2024%Z) (Some 3%Z))
  /\ 1%Z ∉ rowids (obtener_ingresos
                     (ejecutar_todas Fecha.strptime_ymd
                        (eliminar_ingreso db_escenario 1)
                        [OpInsertarIngreso "2024-04-01" "Bonus" (Qc_of_Z 10)
                           (Qc_of_Z 80) (Qc_of_Z 10) (Qc_of_Z 10)])
                     None None).
Proof.
  split.
  - apply (proj1 (insertar_obtener_eliminar Fecha.strptime_ymd) db_vacia
             "2024-03-01" "Salary" (Qc_of_Z 1000) (Qc_of_Z 80) (Qc_of_Z 10)
             (Qc_of_Z 10) {| year := 2024; month := 3; day := 1 |}).
    reflexivity.
  - apply (proj2 (proj2 (insertar_obtener_eliminar Fecha.strptime_ymd))).
    vm_compute. discriminate.
Defined.

Lemma int64_2_63 : int64 (2 ^ 63) = false.
Proof. reflexivity. Qed.

(** C9, as amended. Deleting a key in the signed 64-bit range that no row
    of the table carries completes and leaves the whole store as it was,
    for incomes and for expenses. *)
Theorem eliminar_absent_noop (db : DB) (id : Z) :
  int64 id = true ->
  (id ∉ rowids (filas (ingresos db)) ->
   llamar_eliminar_ingreso db id = Some db)
  /\ (id ∉ rowids (filas (gastos db)) ->
      llamar_eliminar_gasto db id = Some db).
Proof.
  intros Hid. unfold llamar_eliminar_ingreso, llamar_eliminar_gasto.
  rewrite Hid. destruct db as [ti tg].
  unfold eliminar_ingreso, eliminar_gasto. simpl.
  split; intros Habs; do 2 f_equal; now apply sql_delete_absent.
Qed.

Lemma eliminar_absent_noop_witness :
  llamar_eliminar_ingreso db_escenario 7 = Some db_escenario
  /\ llamar_eliminar_gasto db_escenario 7 = Some db_escenario.
Proof.
  split.
  - apply (proj1 (eliminar_absent_noop db_escenario 7 eq_refl)).
    vm_compute. intros Hin. apply list_elem_of_In in Hin. simpl in Hin.
    destruct Hin as [Hin|[]]. discriminate.
  - apply (proj2 (eliminar_absent_noop db_escenario 7 eq_refl)).
    vm_compute. intros Hin. apply list_elem_of_In in Hin. simpl in Hin.
    destruct Hin as [Hin|[]]. discriminate.
Defined.

(** C9, as stated, fails: 2^63 is the key of no row, it cannot be, and
    the calls with it raise instead of completing. *)
Lemma eliminar_absent_raises :
  ~ (forall db id,
        (id ∉ rowids (filas (ingresos db)) ->
         llamar_eliminar_ingreso db id = Some db)
        /\ (id ∉ rowids (filas (gastos db)) ->
            llamar_eliminar_gasto db id = Some db)).
Proof.
  intros Hall. destruct (Hall db_vacia (2 ^ 63)%Z) as [Hi _].
  assert (Habs : (2 ^ 63)%Z ∉ rowids (filas (ingresos db_vacia)))
    by apply not_elem_of_nil.
  specialize (Hi Habs). unfold llamar_eliminar_ingreso in Hi.
  rewrite int64_2_63 in Hi. discriminate.
Qed.

(** C10. With no year, a month argument changes nothing: the query is the
    unfiltered one, for incomes and for expenses. *)
Theorem mes_sin_anio_ignored (db : DB) (m : Z) :
  obtener_ingresos db None (Some m) = obtener_ingresos db None None
  /\ obtener_gastos db None (Some m) = obtener_gastos db None None
  /\ obtener_ingresos db None (Some m)
     ≡ₚ filas (ingresos db)
  /\ obtener_gastos db None (Some m) ≡ₚ filas (gastos db).
Proof.
  assert (Hall : forall (R : Type) (HF : Fila R) (l : list R),
             List.filter (cumple SinWhere) l = l).
  { intros R HF l. induction l as [|x l IH]; simpl; [reflexivity | now rewrite IH]. }
  repeat split; unfold obtener_ingresos, obtener_gastos; simpl armar_where.
  - rewrite read_sql_query_perm. now rewrite Hall.
  - rewrite read_sql_query_perm. now rewrite Hall.
Qed.

(** ** Printed dates compare as dates *)

Module FechaFacts.
Import Fecha.








Lemma strftime_ymd_pad4 (d : datetime) :
  (1000 <= year d)%Z ->
  strftime_ymd d
  = pad4 (year d) ++ "-" ++ pad2 (month d) ++ "-" ++ pad2 (day d).
Proof.
  intros Hy. unfold strftime_ymd.
  destruct (Z.ltb_spec (year d) 1000) as [Hlt|_]; [lia | reflexivity].
Qed.


(** The parser reads back what [strftime_ymd] prints for a calendar
    date. *)
Lemma strptime_strftime_example :
  strptime_ymd (strftime_ymd {| year := 2024; month := 3; day := 5 |})
  = Some {| year := 2024; month := 3; day := 5 |}.
Proof. reflexivity. Qed.

End FechaFacts.

Module FechaRoundTrip.
Import Fecha.

Lemma digit_val_digit_char (n : Z) :
  (0 <= n <= 9)%Z -> digit_val (digit_char n) = Some n.
Proof.
  intros Hn. unfold digit_val, digit_char.
  rewrite N_ascii_embedding by lia.
  assert (H1 : (48 <=? 48 + Z.to_N n)%N = true) by (apply N.leb_le; lia).
  assert (H2 : (48 + Z.to_N n <=? 57)%N = true) by (apply N.leb_le; lia).
  rewrite H1, H2. simpl. f_equal. lia.
Qed.

Lemma days_in_month_le (y m : Z) : (days_in_month y m <= 31)%Z.
Proof.
  unfold days_in_month.
  destruct (m =? 2)%Z; [destruct (is_leap y); lia |].
  destruct (_ || _); lia.
Qed.

Lemma fecha_valida_bounds (y m d : Z) :
  fecha_valida y m d = true ->
  (1 <= y <= 9999 /\ 1 <= m <= 12 /\ 1 <= d <= 31)%Z.
Proof.
  unfold fecha_valida. rewrite !andb_true_iff, !Z.leb_le.
  pose proof (days_in_month_le y m). lia.
Qed.

Lemma parse_Y_pad4 (y : Z) (rest : string) :
  (0 <= y <= 9999)%Z -> parse_Y (pad4 y ++ rest) = Some (y, rest).
Proof.
  intros Hy. unfold pad4, pad2. simpl.
  pose proof (Z.div_pos y 100 ltac:(lia) ltac:(lia)) as Hq0.
  pose proof (Z.div_lt_upper_bound y 100 100 ltac:(lia) ltac:(lia)) as Hq1.
  pose proof (Z.mod_pos_bound y 100 ltac:(lia)) as Hr.
  pose proof (Z.div_pos (y / 100) 10 ltac:(lia) ltac:(lia)).
  pose proof (Z.div_lt_upper_bound (y / 100) 10 10 ltac:(lia) ltac:(lia)).
  pose proof (Z.mod_pos_bound (y / 100) 10 ltac:(lia)).
  pose proof (Z.div_pos (y mod 100) 10 ltac:(lia) ltac:(lia)).
  pose proof (Z.div_lt_upper_bound (y mod 100) 10 10 ltac:(lia) ltac:(lia)).
  pose proof (Z.mod_pos_bound (y mod 100) 10 ltac:(lia)).
  rewrite !digit_val_digit_char by lia.
  do 2 f_equal.
  pose proof (Z.div_mod y 100 ltac:(lia)).
  pose proof (Z.div_mod (y / 100) 10 ltac:(lia)).
  pose proof (Z.div_mod (y mod 100) 10 ltac:(lia)).
  lia.
Qed.

Lemma parse_1_2_pad2_stop (n : Z) (c : ascii) (rest : string) :
  (0 <= n <= 99)%Z ->
  parse_1_2 (Some c) (pad2 n ++ String c rest) = Some (n, String c rest).
Proof.
  intros Hn. unfold pad2, parse_1_2. simpl.
  pose proof (Z.div_pos n 10 ltac:(lia) ltac:(lia)).
  pose proof (Z.div_lt_upper_bound n 10 10 ltac:(lia) ltac:(lia)).
  pose proof (Z.mod_pos_bound n 10 ltac:(lia)).
  rewrite !digit_val_digit_char by lia.
  rewrite Ascii.eqb_refl. do 2 f_equal.
  pose proof (Z.div_mod n 10 ltac:(lia)). lia.
Qed.

Lemma parse_1_2_pad2_end (n : Z) :
  (0 <= n <= 99)%Z -> parse_1_2 None (pad2 n) = Some (n, "").
Proof.
  intros Hn. unfold pad2, parse_1_2.
  pose proof (Z.div_pos n 10 ltac:(lia) ltac:(lia)).
  pose proof (Z.div_lt_upper_bound n 10 10 ltac:(lia) ltac:(lia)).
  pose proof (Z.mod_pos_bound n 10 ltac:(lia)).
  rewrite !digit_val_digit_char by lia.
  do 2 f_equal.
  pose proof (Z.div_mod n 10 ltac:(lia)). lia.
Qed.

Lemma skip_same (c : ascii) (s : string) : skip c (String c s) = Some s.
Proof. unfold skip. now rewrite Ascii.eqb_refl. Qed.

Lemma digit_char_no_space (n : Z) :
  (0 <= n <= 9)%Z -> Ascii.eqb (digit_char n) " " = false.
Proof.
  intros Hn. apply Ascii.eqb_neq. intros Heq.
  apply (f_equal N_of_ascii) in Heq. unfold digit_char in Heq.
  rewrite N_ascii_embedding in Heq by lia. simpl in Heq. lia.
Qed.

Lemma parse_d_pad2 (n : Z) :
  (0 <= n <= 99)%Z -> parse_d (pad2 n) = Some (n, "").
Proof.
  intros Hn. unfold parse_d, pad2.
  pose proof (Z.div_pos n 10 ltac:(lia) ltac:(lia)).
  pose proof (Z.div_lt_upper_bound n 10 10 ltac:(lia) ltac:(lia)).
  rewrite digit_char_no_space by lia.
  exact (parse_1_2_pad2_end n Hn).
Qed.

(** The parser reads back the text printed for a calendar date with a
    four-digit year. *)
Lemma strptime_strftime_campos (y m dd : Z) :
  (1000 <= y)%Z -> fecha_valida y m dd = true ->
  strptime_ymd (strftime_ymd {| year := y; month := m; day := dd |})
  = Some {| year := y; month := m; day := dd |}.
Proof.
  intros H1000 Hv.
  destruct (fecha_valida_bounds y m dd Hv) as (Hy & Hm & Hd).
  rewrite FechaFacts.strftime_ymd_pad4 by exact H1000.
  unfold strptime_ymd. cbn [year month day].
  change ("-" ++ pad2 dd) with (String "-" (pad2 dd)).
  change ("-" ++ pad2 m ++ String "-" (pad2 dd))
    with (String "-" (pad2 m ++ String "-" (pad2 dd))).
  rewrite parse_Y_pad4 by lia.
  cbn [mbind option_bind]. rewrite skip_same.
  cbn [mbind option_bind].
  rewrite parse_1_2_pad2_stop by lia.
  cbn [mbind option_bind]. rewrite skip_same.
  cbn [mbind option_bind].
  rewrite parse_d_pad2 by lia.
  cbn [mbind option_bind]. now rewrite Hv.
Qed.

End FechaRoundTrip.

(** ** Queries *)










(** The order is that of the stored text: the padded dates come out
    chronologically, the unpadded "2024-3-9" sorts above both. *)
Remark obtener_ingresos_db_fechas :
  ing_fecha <$> obtener_ingresos db_fechas None None
  = ["2024-3-9"; "2024-10-05"; "2024-03-01"]
  /\ ing_fecha <$> obtener_ingresos db_fechas (Some 2024%Z) (Some 3%Z)
     = ["2024-3-9"; "2024-03-01"]
  /\ id_ingreso <$> obtener_ingresos db_fechas (Some 2024%Z) None
     = [3; 2; 1]%Z.
Proof. repeat split; reflexivity. Qed.

(** ** Available years *)

#[local] Instance flip_Zle_total : Total (flip Z.le).
Proof. intros x y. unfold flip. lia. Qed.

#[local] Instance flip_Zle_trans : Transitive (flip Z.le).
Proof. intros x y z. unfold flip. lia. Qed.

Lemma elem_of_select_anios (db : DB) (y : Z) :
  y ∈ select_anios db <->
  y ∈ (anio <$> filas (ingresos db)) \/ y ∈ (anio <$> filas (gastos db)).
Proof.
  unfold select_anios.
  rewrite merge_sort_Permutation, elem_of_remove_dups, elem_of_app.
  now rewrite !elem_of_remove_dups.
Qed.

Lemma NoDup_select_anios (db : DB) : NoDup (select_anios db).
Proof.
  unfold select_anios. rewrite merge_sort_Permutation. apply NoDup_remove_dups.
Qed.

Lemma sorted_distinct_gt (l : list Z) :
  StronglySorted (flip Z.le) l -> NoDup l -> StronglySorted Z.gt l.
Proof.
  induction 1 as [|x l _ IH Hx]; intros Hnd; constructor.
  - apply IH. now apply NoDup_cons in Hnd.
  - apply NoDup_cons in Hnd as [Hx' _].
    rewrite Forall_forall in *. intros y Hy.
    specialize (Hx y Hy). unfold flip in Hx.
    assert (x <> y) by (intros ->; exact (Hx' Hy)). lia.
Qed.

Lemma select_anios_desc (db : DB) : StronglySorted Z.gt (select_anios db).
Proof.
  apply sorted_distinct_gt; [|apply NoDup_select_anios].
  apply StronglySorted_merge_sort; apply _.
Qed.

(** C8. [obtener_anios_disponibles] lists, without repetition and in
    strictly descending order, exactly the years that occur in the incomes
    table or in the expenses table; when both tables are empty it returns
    the single element [now_year], the current calendar year. *)
Theorem obtener_anios_disponibles_spec (now_year : Z) (db : DB) :
  let anios := obtener_anios_disponibles now_year db in
  NoDup anios
  /\ StronglySorted Z.gt anios
  /\ (filas (ingresos db) <> [] \/ filas (gastos db) <> [] ->
      forall y, y ∈ anios <->
                y ∈ (anio <$> filas (ingresos db))
                \/ y ∈ (anio <$> filas (gastos db)))
  /\ (filas (ingresos db) = [] -> filas (gastos db) = [] ->
      anios = [now_year]).
Proof.
  intros anios. subst anios. unfold obtener_anios_disponibles.
  pose proof (elem_of_select_anios db) as Hel.
  pose proof (NoDup_select_anios db) as Hnd.
  pose proof (select_anios_desc db) as Hs.
  destruct (select_anios db) as [|y0 ys] eqn:E.
  - split; [apply NoDup_singleton |].
    split; [repeat constructor |].
    split; [|reflexivity].
    intros Hne. exfalso.
    destruct Hne as [Hne|Hne].
    + destruct (filas (ingresos db)) as [|r l]; [congruence |].
      apply (not_elem_of_nil (anio r)), Hel. left. rewrite fmap_cons. left.
    + destruct (filas (gastos db)) as [|r l]; [congruence |].
      apply (not_elem_of_nil (anio r)), Hel. right. rewrite fmap_cons. left.
  - split; [exact Hnd |]. split; [exact Hs |].
    split; [intros _; exact Hel |].
    intros Ei Eg. exfalso.
    assert (Hy : y0 ∈ y0 :: ys) by left.
    apply Hel in Hy. rewrite Ei, Eg in Hy. simpl in Hy.
    destruct Hy as [Hy|Hy]; exact (not_elem_of_nil _ Hy).
Qed.

Lemma obtener_anios_disponibles_spec_witness :
  (forall y, y ∈ obtener_anios_disponibles 2026 db_fechas <->
             y ∈ (anio <$> filas (ingresos db_fechas))
             \/ y ∈ (anio <$> filas (gastos db_fechas)))
  /\ obtener_anios_disponibles 2026 db_vacia = [2026%Z].
Proof.
  split.
  - apply (obtener_anios_disponibles_spec 2026 db_fechas).
    left. discriminate.
  - apply (obtener_anios_disponibles_spec 2026 db_vacia); reflexivity.
Defined.

Remark obtener_anios_disponibles_db_fechas :
  obtener_anios_disponibles 2026 db_fechas = [2024; 2023]%Z.
Proof. reflexivity. Qed.


(** ** The scenario, evaluated *)

Remark resumen_buckets_escenario :
  let r := resumen_buckets db_escenario 2024 3 in
  (lookup_bucket (presupuesto r) Necesidades = Qc_of_Z 800
   /\ lookup_bucket (presupuesto r) Deseos = Qc_of_Z 100
   /\ lookup_bucket (presupuesto r) Ahorro = Qc_of_Z 100)
  /\ (lookup_bucket (gastado r) Necesidades = Qc_of_Z 150
      /\ lookup_bucket (gastado r) Deseos = Qc_of_Z 0
      /\ lookup_bucket (gastado r) Ahorro = Qc_of_Z 0)
  /\ (lookup_bucket (disponible r) Necesidades = Qc_of_Z 650
      /\ lookup_bucket (disponible r) Deseos = Qc_of_Z 100
      /\ lookup_bucket (disponible r) Ahorro = Qc_of_Z 100).
Proof. cbv zeta. repeat split; qc_compute. Qed.

(** In binary64 the amounts of the scenario are exact, while for a total of
    one tenth the three amounts add up to a neighbouring double: the sum
    equals the total up to rounding only. *)
Remark binary64_montos :
  Binary64.montos 1000 80 10 10 = (800, 100, 100)%float
  /\ PrimFloat.eqb (Binary64.suma_montos 1000 80 10 10) 1000 = true
  /\ PrimFloat.eqb (Binary64.suma_montos Binary64.un_decimo 80 10 10)
       Binary64.un_decimo = false
  /\ PrimFloat.leb
       (abs (Binary64.suma_montos Binary64.un_decimo 80 10 10
             - Binary64.un_decimo))
       0x1p-55%float = true.
Proof. repeat split; vm_compute; reflexivity. Qed.

(** * Further properties of the store and of the handlers *)

(** ** Rows after a write *)

Lemma resumen_buckets_de (db : DB) (a m : Z) :
  resumen_buckets db a m =
    resumen_de (del_periodo a m (filas (ingresos db)))
               (del_periodo a m (filas (gastos db))).
Proof.
  unfold resumen_buckets, resumen_de. cbv zeta.
  rewrite !sum_col_empty.
  pose proof (periodo_perm (ingresos db) a m) as Hi.
  pose proof (periodo_perm (gastos db) a m) as Hg.
  fold (obtener_ingresos db (Some a) (Some m)) in Hi.
  fold (obtener_gastos db (Some a) (Some m)) in Hg.
  rewrite !(sum_col_perm _ _ _ Hi).
  assert (Hgast :
    (if negb (empty (obtener_gastos db (Some a) (Some m)))
     then {| de_necesidades := gastado_en Necesidades (obtener_gastos db (Some a) (Some m));
             de_deseos := gastado_en Deseos (obtener_gastos db (Some a) (Some m));
             de_ahorro := Q2Qc 0 |}
     else {| de_necesidades := Q2Qc 0; de_deseos := Q2Qc 0; de_ahorro := Q2Qc 0 |})
    = {| de_necesidades := gastado_en Necesidades (del_periodo a m (filas (gastos db)));
         de_deseos := gastado_en Deseos (del_periodo a m (filas (gastos db)));
         de_ahorro := Q2Qc 0 |}).
  { rewrite <- !(gastado_en_perm _ _ _ Hg).
    destruct (obtener_gastos db (Some a) (Some m)); reflexivity. }
  rewrite Hgast. reflexivity.
Qed.

Lemma filas_iguales_resumen (db db' : DB) :
  filas (ingresos db') = filas (ingresos db) ->
  filas (gastos db') = filas (gastos db) ->
  forall a m, resumen_buckets db' a m = resumen_buckets db a m.
Proof. intros Hi Hg a m. rewrite !resumen_buckets_de. now rewrite Hi, Hg. Qed.

Section TablaKeys.
Context {R : Type} `{Fila R}.

Lemma max_rowid_bound (l : list R) :
  Forall (fun k => (k <= max_rowid l)%Z) (rowids l).
Proof.
  unfold rowids. induction l as [|x l IH]; simpl; constructor; [lia |].
  eapply Forall_impl; [exact IH |]. simpl. intros; lia.
Qed.

Lemma max_rowid_nonneg (l : list R) : (0 <= max_rowid l)%Z.
Proof. induction l as [|x l IH]; simpl; lia. Qed.

Lemma max_rowid_le (l : list R) (s : Z) :
  (0 <= s)%Z -> Forall (fun k => (k <= s)%Z) (rowids l) -> (max_rowid l <= s)%Z.
Proof.
  unfold rowids. intros Hs. induction l as [|x l IH]; simpl; [lia |].
  intros Hall. apply Forall_cons in Hall as [Hx Hl]. specialize (IH Hl). lia.
Qed.

Lemma filter_rowid_app_new (l : list R) (r : R) (k : Z) :
  rowid r = k -> k ∉ rowids l ->
  filter (fun x => rowid x <> k) (l ++ [r])%list = l.
Proof.
  intros Hr Hfresh. rewrite filter_app, (filter_rowid_id l k Hfresh).
  rewrite filter_cons_False by (intros Hne; now apply Hne).
  rewrite filter_nil. apply app_nil_r.
Qed.

(** Inserting a row and deleting its key gives back the rows, not the
    counter. *)
Lemma sql_insert_delete (t : Tabla R) (mk : Z -> R) :
  (forall k, rowid (mk k) = k) ->
  filas (sql_delete (sql_insert t mk) (next_rowid t)) = filas t
  /\ next_rowid (sql_delete (sql_insert t mk) (next_rowid t))
     = (next_rowid t + 1)%Z.
Proof.
  intros Hmk.
  assert (Hf : filas (sql_delete (sql_insert t mk) (next_rowid t)) = filas t).
  { simpl. apply filter_rowid_app_new; [apply Hmk | apply next_rowid_fresh]. }
  split; [exact Hf |].
  unfold next_rowid at 1. rewrite Hf. simpl secuencia. unfold next_rowid. lia.
Qed.

Lemma tabla_ok_vacia : tabla_ok (tabla_vacia (R:=R)).
Proof. split; constructor. Qed.

Lemma tabla_ok_insert (t : Tabla R) (mk : Z -> R) :
  (forall k, rowid (mk k) = k) ->
  tabla_ok t -> tabla_ok (sql_insert t mk).
Proof.
  intros Hmk [Hs Hb]. unfold tabla_ok, rowids in *. simpl.
  pose proof (max_rowid_bound (filas t)) as Hmax. unfold rowids in Hmax.
  pose proof (max_rowid_nonneg (filas t)) as H0.
  rewrite fmap_app. simpl. rewrite Hmk. split.
  - apply StronglySorted_app_2; [|exact Hs | repeat constructor].
    intros x1 x2 Hx1 Hx2. apply list_elem_of_singleton in Hx2 as ->.
    rewrite Forall_forall in Hmax. apply Hmax in Hx1.
    unfold next_rowid. lia.
  - apply Forall_app. split.
    + rewrite Forall_forall in *. intros k Hk.
      specialize (Hb k Hk). specialize (Hmax k Hk). unfold next_rowid. lia.
    + constructor; [|constructor]. unfold next_rowid. lia.
Qed.

Lemma tabla_ok_delete (t : Tabla R) (k : Z) :
  tabla_ok t -> tabla_ok (sql_delete t k).
Proof.
  intros [Hs Hb]. unfold tabla_ok, rowids in *. simpl.
  induction (filas t) as [|x l IH]; simpl in *; [split; constructor |].
  apply StronglySorted_inv in Hs as [Hs Hx].
  apply Forall_cons in Hb as [Hbx Hb].
  destruct (IH Hs Hb) as [IHs IHb].
  assert (Hsub : forall j, j ∈ rowid <$> filter (fun r => rowid r <> k) l ->
                           j ∈ rowid <$> l).
  { intros j. rewrite !list_elem_of_fmap. intros (r & -> & Hr).
    apply list_elem_of_filter in Hr. exists r. tauto. }
  destruct (decide (rowid x <> k)) as [Hne|He].
  - rewrite filter_cons_True by exact Hne. simpl. split.
    + constructor; [exact IHs |].
      rewrite Forall_forall in *. intros j Hj.
      apply Hx, Hsub, Hj.
    + constructor; assumption.
  - rewrite filter_cons_False by exact He. split; assumption.
Qed.

Lemma tabla_ok_NoDup (t : Tabla R) : tabla_ok t -> NoDup (rowids (filas t)).
Proof.
  intros [Hs _]. induction Hs as [|k l _ IH Hk]; constructor; [|exact IH].
  intros Hin. rewrite Forall_forall in Hk.
  apply Hk in Hin. lia.
Qed.

Lemma elem_of_sql_delete (t : Tabla R) (k : Z) (r : R) :
  r ∈ filas (sql_delete t k) <-> r ∈ filas t /\ rowid r <> k.
Proof. simpl. rewrite list_elem_of_filter. tauto. Qed.

Lemma sql_delete_length (t : Tabla R) (k : Z) :
  NoDup (rowids (filas t)) -> k ∈ rowids (filas t) ->
  S (length (filas (sql_delete t k))) = length (filas t).
Proof.
  unfold rowids. simpl. induction (filas t) as [|x l IH]; simpl.
  - intros _ Hin. now apply elem_of_nil in Hin.
  - intros Hnd Hin. apply NoDup_cons in Hnd as [Hx Hnd].
    destruct (decide (rowid x = k)) as [He|Hne].
    + rewrite filter_cons_False by (intros Hc; now apply Hc).
      subst k. now rewrite (filter_rowid_id l (rowid x) Hx).
    + rewrite filter_cons_True by exact Hne. simpl. f_equal.
      apply IH; [exact Hnd |].
      apply elem_of_cons in Hin as [Hin|Hin]; [congruence | exact Hin].
Qed.

Lemma sql_delete_twice (t : Tabla R) (j k : Z) :
  sql_delete (sql_delete t j) k = sql_delete (sql_delete t k) j
  /\ sql_delete (sql_delete t k) k = sql_delete t k.
Proof.
  unfold sql_delete. simpl. split; f_equal.
  - rewrite !list_filter_filter. apply list_filter_iff. intros x. tauto.
  - rewrite list_filter_filter. apply list_filter_iff. intros x. tauto.
Qed.

End TablaKeys.

(** ** Expenses: round trip *)

(** X1. After [insertar_gasto] the query for the year and month of the
    date returns the row with a key no earlier row has and the date,
    category, concept and amount given; once that key is deleted no query
    returns it. *)
Theorem insertar_obtener_gasto (strptime : string -> option datetime)
    (db : DB) (fecha cat concepto : string) (v : Qc) (d : datetime) :
  strptime fecha = Some d ->
  exists db',
    insertar_gasto strptime db fecha cat concepto v = Some db'
    /\ (next_rowid (gastos db) ∉ rowids (filas (gastos db)))
    /\ {| id_gasto := next_rowid (gastos db); gas_fecha := fecha;
          gas_anio := year d; gas_mes := month d; categoria := cat;
          gas_concepto := concepto; valor := v |}
       ∈ obtener_gastos db' (Some (year d)) (Some (month d))
    /\ (forall oa om,
           next_rowid (gastos db)
           ∉ rowids (obtener_gastos
                       (eliminar_gasto db' (next_rowid (gastos db))) oa om)).
Proof.
  intros Hd.
  destruct (insertar_gasto_Some strptime db fecha cat concepto v d Hd)
    as (db' & Hins & _ & Hf & _).
  exists db'. split; [exact Hins |].
  split; [apply next_rowid_fresh |]. split.
  - unfold obtener_gastos. apply elem_of_read_sql_query. split.
    + rewrite Hf, elem_of_app. right. apply list_elem_of_singleton. reflexivity.
    + simpl. now rewrite !Z.eqb_refl.
  - intros oa om Hin. apply rowids_read_sql_query in Hin.
    exact (sql_delete_gone (gastos db') _ Hin).
Qed.

Lemma insertar_obtener_gasto_witness :
  exists db',
    insertar_gasto Fecha.strptime_ymd db_escenario "2024-03-09" "Deseos"
      "cine" (Qc_of_Z 20) = Some db'
    /\ (2%Z ∉ rowids (filas (gastos db_escenario)))
    /\ {| id_gasto := 2; gas_fecha := "2024-03-09";
          gas_anio := 2024; gas_mes := 3; categoria := "Deseos";
          gas_concepto := "cine"; valor := Qc_of_Z 20 |}
       ∈ obtener_gastos db' (Some 2024%Z) (Some 3%Z)
    /\ (forall oa om,
           2%Z ∉ rowids (obtener_gastos (eliminar_gasto db' 2) oa om)).
Proof.
  apply (insertar_obtener_gasto Fecha.strptime_ymd db_escenario "2024-03-09"
           "Deseos" "cine" (Qc_of_Z 20) {| year := 2024; month := 3; day := 9 |}).
  reflexivity.
Defined.

(** ** Keys *)

Lemma ejecutar_db_ok (strptime : string -> option datetime) (db : DB) (op : Op) :
  db_ok db -> db_ok (ejecutar strptime db op).
Proof.
  intros [Hi Hg]. destruct op as [f c v pn pd pa|f cat c v|k|k]; simpl.
  - unfold insertar_ingreso. destruct (strptime f) as [d|]; simpl; [|now split].
    split; [|exact Hg]. now apply tabla_ok_insert.
  - unfold insertar_gasto. destruct (strptime f) as [d|]; simpl; [|now split].
    split; [exact Hi |]. now apply tabla_ok_insert.
  - split; [now apply tabla_ok_delete | exact Hg].
  - split; [exact Hi | now apply tabla_ok_delete].
Qed.

Lemma ejecutar_todas_db_ok (strptime : string -> option datetime)
    (ops : list Op) (db : DB) :
  db_ok db -> db_ok (ejecutar_todas strptime db ops).
Proof.
  revert db. induction ops as [|op ops IH]; intros db Hok; [exact Hok |].
  simpl. apply IH, ejecutar_db_ok, Hok.
Qed.

Lemma db_ok_vacia : db_ok db_vacia.
Proof. split; apply tabla_ok_vacia. Qed.

(** X2. Whatever inserts and deletes are run on a fresh store, in each
    table the keys are positive, grow strictly with the rows (so no two
    rows share a key) and never exceed the table's counter. *)
Theorem claves_unicas (strptime : string -> option datetime) (ops : list Op) :
  let db := ejecutar_todas strptime db_vacia ops in
  db_ok db
  /\ NoDup (rowids (filas (ingresos db)))
  /\ NoDup (rowids (filas (gastos db))).
Proof.
  intros db. assert (Hok : db_ok db) by apply ejecutar_todas_db_ok, db_ok_vacia.
  split; [exact Hok |]. destruct Hok as [Hi Hg].
  split; now apply tabla_ok_NoDup.
Qed.

(** X3. In a store whose keys are unique, deleting a key that a row
    carries removes exactly one row of that table, keeps every row with
    another key and leaves the other table alone. *)
Theorem eliminar_quita_una_fila (db : DB) (id : Z) :
  (NoDup (rowids (filas (ingresos db))) ->
   id ∈ rowids (filas (ingresos db)) ->
   S (length (filas (ingresos (eliminar_ingreso db id))))
   = length (filas (ingresos db))
   /\ (forall r, r ∈ filas (ingresos (eliminar_ingreso db id)) <->
                 r ∈ filas (ingresos db) /\ id_ingreso r <> id)
   /\ gastos (eliminar_ingreso db id) = gastos db)
  /\ (NoDup (rowids (filas (gastos db))) ->
      id ∈ rowids (filas (gastos db)) ->
      S (length (filas (gastos (eliminar_gasto db id))))
      = length (filas (gastos db))
      /\ (forall g, g ∈ filas (gastos (eliminar_gasto db id)) <->
                    g ∈ filas (gastos db) /\ id_gasto g <> id)
      /\ ingresos (eliminar_gasto db id) = ingresos db).
Proof.
  split; intros Hnd Hin.
  - split; [exact (sql_delete_length (ingresos db) id Hnd Hin) |].
    split; [|reflexivity].
    intros r. exact (elem_of_sql_delete (ingresos db) id r).
  - split; [exact (sql_delete_length (gastos db) id Hnd Hin) |].
    split; [|reflexivity].
    intros g. exact (elem_of_sql_delete (gastos db) id g).
Qed.

Lemma eliminar_quita_una_fila_witness :
  S (length (filas (ingresos (eliminar_ingreso db_fechas 2))))
  = length (filas (ingresos db_fechas))
  /\ S (length (filas (gastos (eliminar_gasto db_escenario 1))))
     = length (filas (gastos db_escenario)).
Proof.
  split.
  - apply (proj1 (eliminar_quita_una_fila db_fechas 2)).
    + apply tabla_ok_NoDup.
      exact (proj1 (ejecutar_todas_db_ok Fecha.strptime_ymd _ db_vacia db_ok_vacia)).
    + vm_compute. right. left.
  - apply (proj2 (eliminar_quita_una_fila db_escenario 1)).
    + vm_compute. apply NoDup_singleton.
    + vm_compute. left.
Defined.

(** X4. Deleting the row just inserted gives back the rows the tables
    had, hence every summary, while the counter has moved on: the next
    insert gets the key after the deleted one, never the deleted one. *)
Theorem insertar_eliminar_deshace (strptime : string -> option datetime)
    (db : DB) (fecha cat concepto : string) (T pn pd pa v : Qc) (d : datetime) :
  strptime fecha = Some d ->
  (exists db',
      insertar_ingreso strptime db fecha concepto T pn pd pa = Some db'
      /\ let db'' := eliminar_ingreso db' (next_rowid (ingresos db)) in
         filas (ingresos db'') = filas (ingresos db)
         /\ gastos db'' = gastos db
         /\ (forall a m, resumen_buckets db'' a m = resumen_buckets db a m)
         /\ next_rowid (ingresos db'') = (next_rowid (ingresos db) + 1)%Z)
  /\ (exists db',
         insertar_gasto strptime db fecha cat concepto v = Some db'
         /\ let db'' := eliminar_gasto db' (next_rowid (gastos db)) in
            filas (gastos db'') = filas (gastos db)
            /\ ingresos db'' = ingresos db
            /\ (forall a m, resumen_buckets db'' a m = resumen_buckets db a m)
            /\ next_rowid (gastos db'') = (next_rowid (gastos db) + 1)%Z).
Proof.
  intros Hd. split.
  - unfold insertar_ingreso. rewrite Hd. simpl. eexists. split; [reflexivity |].
    cbv zeta.
    match goal with
    | |- context [sql_insert (ingresos db) ?f] =>
        destruct (@sql_insert_delete Ingreso Fila_Ingreso (ingresos db) f
                    ltac:(intros k; reflexivity)) as [Hf Hn]
    end.
    split; [exact Hf |]. split; [reflexivity |].
    split; [|exact Hn].
    intros a m. apply filas_iguales_resumen; [exact Hf | reflexivity].
  - unfold insertar_gasto. rewrite Hd. simpl. eexists. split; [reflexivity |].
    cbv zeta.
    match goal with
    | |- context [sql_insert (gastos db) ?f] =>
        destruct (@sql_insert_delete Gasto Fila_Gasto (gastos db) f
                    ltac:(intros k; reflexivity)) as [Hf Hn]
    end.
    split; [exact Hf |]. split; [reflexivity |].
    split; [|exact Hn].
    intros a m. apply filas_iguales_resumen; [reflexivity | exact Hf].
Qed.

Lemma insertar_eliminar_deshace_witness :
  exists db',
    insertar_gasto Fecha.strptime_ymd db_escenario "2024-03-09" "Deseos"
      "cine" (Qc_of_Z 20) = Some db'
    /\ filas (gastos (eliminar_gasto db' 2)) = filas (gastos db_escenario)
    /\ next_rowid (gastos (eliminar_gasto db' 2)) = 3%Z.
Proof.
  destruct (proj2 (insertar_eliminar_deshace Fecha.strptime_ymd db_escenario
                     "2024-03-09" "Deseos" "cine" (Qc_of_Z 1) (Qc_of_Z 1)
                     (Qc_of_Z 1) (Qc_of_Z 1) (Qc_of_Z 20)
                     {| year := 2024; month := 3; day := 9 |} eq_refl))
    as (db' & Hins & Hf & _ & _ & Hn).
  exists db'. split; [exact Hins |]. split; [exact Hf | exact Hn].
Defined.

(** X5. Deleting the same key twice is deleting it once, and two deletes
    can be done in either order, in each table and across the two. *)
Theorem eliminar_conmuta (db : DB) (j k : Z) :
  eliminar_ingreso (eliminar_ingreso db k) k = eliminar_ingreso db k
  /\ eliminar_gasto (eliminar_gasto db k) k = eliminar_gasto db k
  /\ eliminar_ingreso (eliminar_ingreso db j) k
     = eliminar_ingreso (eliminar_ingreso db k) j
  /\ eliminar_gasto (eliminar_gasto db j) k
     = eliminar_gasto (eliminar_gasto db k) j
  /\ eliminar_gasto (eliminar_ingreso db j) k
     = eliminar_ingreso (eliminar_gasto db k) j.
Proof.
  unfold eliminar_ingreso, eliminar_gasto. simpl.
  destruct (sql_delete_twice (ingresos db) j k) as [Hci Hii].
  destruct (sql_delete_twice (gastos db) j k) as [Hcg Hig].
  repeat split; f_equal; assumption.
Qed.

(** ** What a write leaves alone *)

Lemma read_sql_query_insert_out {R : Type} `{Fila R} (t : Tabla R)
    (mk : Z -> R) (w : Where) :
  cumple w (mk (next_rowid t)) = false ->
  read_sql_query (sql_insert t mk) w = read_sql_query t w.
Proof.
  intros Hout. unfold read_sql_query. simpl.
  rewrite List.filter_app. simpl. rewrite Hout. now rewrite app_nil_r.
Qed.

Lemma cumple_otro_periodo {R : Type} `{Fila R} (a m : Z) (r : R) :
  (a, m) <> (anio r, mes r) -> cumple (WhereAnioMes a m) r = false.
Proof.
  intros Hne. simpl.
  destruct (Z.eqb_spec (anio r) a) as [Ha|Ha];
    destruct (Z.eqb_spec (mes r) m) as [Hm|Hm]; try reflexivity.
  subst. now contradiction Hne.
Qed.

Lemma cumple_otro_anio {R : Type} `{Fila R} (a : Z) (r : R) :
  a <> anio r -> cumple (WhereAnio a) r = false.
Proof. intros Hne. simpl. apply Z.eqb_neq. congruence. Qed.

Lemma resumen_buckets_ext (db db' : DB) (a m : Z) :
  obtener_ingresos db' (Some a) (Some m) = obtener_ingresos db (Some a) (Some m) ->
  obtener_gastos db' (Some a) (Some m) = obtener_gastos db (Some a) (Some m) ->
  resumen_buckets db' a m = resumen_buckets db a m.
Proof. intros Hi Hg. unfold resumen_buckets. now rewrite Hi, Hg. Qed.

Lemma gastado_gastos (db db' : DB) (a m : Z) :
  gastos db' = gastos db ->
  gastado (resumen_buckets db' a m) = gastado (resumen_buckets db a m).
Proof.
  intros Hg. unfold resumen_buckets, obtener_gastos. cbv zeta.
  cbn [gastado]. now rewrite Hg.
Qed.

(** X6. Saving an expense changes no income query and no budget, and for
    every year and month other than those of its date it changes neither
    the expense query nor any figure of the summary; the query for
    another year is unchanged too. *)
Theorem insertar_gasto_marco (strptime : string -> option datetime)
    (db : DB) (fecha cat concepto : string) (v : Qc) (d : datetime) :
  strptime fecha = Some d ->
  exists db',
    insertar_gasto strptime db fecha cat concepto v = Some db'
    /\ (forall oa om, obtener_ingresos db' oa om = obtener_ingresos db oa om)
    /\ (forall a m, presupuesto (resumen_buckets db' a m)
                    = presupuesto (resumen_buckets db a m))
    /\ (forall a m, (a, m) <> (year d, month d) ->
                    obtener_gastos db' (Some a) (Some m)
                    = obtener_gastos db (Some a) (Some m)
                    /\ resumen_buckets db' a m = resumen_buckets db a m)
    /\ (forall a, a <> year d ->
                  obtener_gastos db' (Some a) None = obtener_gastos db (Some a) None).
Proof.
  intros Hd. unfold insertar_gasto. rewrite Hd. simpl.
  eexists. split; [reflexivity |].
  split; [reflexivity |].
  split; [intros a m; now apply presupuesto_ingresos |].
  split.
  - intros a m Hne.
    assert (Hq : forall db0 db1,
               gastos db1 =
                 sql_insert (gastos db0) (fun k =>
                   {| id_gasto := k; gas_fecha := fecha; gas_anio := year d;
                      gas_mes := month d; categoria := cat;
                      gas_concepto := concepto; valor := v |}) ->
               obtener_gastos db1 (Some a) (Some m)
               = obtener_gastos db0 (Some a) (Some m)).
    { intros db0 db1 E. unfold obtener_gastos. rewrite E.
      apply read_sql_query_insert_out. now apply cumple_otro_periodo. }
    split; [now apply Hq |].
    apply resumen_buckets_ext; [reflexivity | now apply Hq].
  - intros a Hne. unfold obtener_gastos. simpl gastos.
    apply read_sql_query_insert_out. now apply cumple_otro_anio.
Qed.

Lemma insertar_gasto_marco_witness :
  exists db',
    insertar_gasto Fecha.strptime_ymd db_escenario "2024-04-02" "Deseos"
      "cine" (Qc_of_Z 20) = Some db'
    /\ resumen_buckets db' 2024 3 = resumen_buckets db_escenario 2024 3.
Proof.
  destruct (insertar_gasto_marco Fecha.strptime_ymd db_escenario "2024-04-02"
              "Deseos" "cine" (Qc_of_Z 20)
              {| year := 2024; month := 4; day := 2 |} eq_refl)
    as (db' & Hins & _ & _ & Hotro & _).
  exists db'. split; [exact Hins |].
  apply (Hotro 2024%Z 3%Z). simpl. congruence.
Defined.

(** X7. Saving an income changes no expense query and no spent figure,
    and for every year and month other than those of its date it changes
    neither the income query nor any figure of the summary; the query for
    another year is unchanged too. *)
Theorem insertar_ingreso_marco (strptime : string -> option datetime)
    (db : DB) (fecha concepto : string) (T pn pd pa : Qc) (d : datetime) :
  strptime fecha = Some d ->
  exists db',
    insertar_ingreso strptime db fecha concepto T pn pd pa = Some db'
    /\ (forall oa om, obtener_gastos db' oa om = obtener_gastos db oa om)
    /\ (forall a m, gastado (resumen_buckets db' a m)
                    = gastado (resumen_buckets db a m))
    /\ (forall a m, (a, m) <> (year d, month d) ->
                    obtener_ingresos db' (Some a) (Some m)
                    = obtener_ingresos db (Some a) (Some m)
                    /\ resumen_buckets db' a m = resumen_buckets db a m)
    /\ (forall a, a <> year d ->
                  obtener_ingresos db' (Some a) None
                  = obtener_ingresos db (Some a) None).
Proof.
  intros Hd. unfold insertar_ingreso. rewrite Hd. simpl.
  eexists. split; [reflexivity |].
  split; [reflexivity |].
  split; [intros a m; now apply gastado_gastos |].
  split.
  - intros a m Hne.
    assert (Hq : obtener_ingresos
                   {| ingresos :=
                        sql_insert (ingresos db) (fun k =>
                          {| id_ingreso := k; ing_fecha := fecha;
                             ing_anio := year d; ing_mes := month d;
                             ing_concepto := concepto; valor_total := T;
                             porc_necesidades := pn; porc_deseos := pd;
                             porc_ahorro := pa;
                             monto_necesidades := (T * (pn / cien))%Qc;
                             monto_deseos := (T * (pd / cien))%Qc;
                             monto_ahorro := (T * (pa / cien))%Qc |});
                      gastos := gastos db |} (Some a) (Some m)
                 = obtener_ingresos db (Some a) (Some m)).
    { unfold obtener_ingresos. simpl ingresos.
      apply read_sql_query_insert_out. now apply cumple_otro_periodo. }
    split; [exact Hq |].
    apply resumen_buckets_ext; [exact Hq | reflexivity].
  - intros a Hne. unfold obtener_ingresos. simpl ingresos.
    apply read_sql_query_insert_out. now apply cumple_otro_anio.
Qed.

Lemma insertar_ingreso_marco_witness :
  exists db',
    insertar_ingreso Fecha.strptime_ymd db_escenario "2024-04-01" "Bonus"
      (Qc_of_Z 500) (Qc_of_Z 80) (Qc_of_Z 10) (Qc_of_Z 10) = Some db'
    /\ resumen_buckets db' 2024 3 = resumen_buckets db_escenario 2024 3.
Proof.
  destruct (insertar_ingreso_marco Fecha.strptime_ymd db_escenario
              "2024-04-01" "Bonus" (Qc_of_Z 500) (Qc_of_Z 80) (Qc_of_Z 10)
              (Qc_of_Z 10) {| year := 2024; month := 4; day := 1 |} eq_refl)
    as (db' & Hins & _ & _ & Hotro & _).
  exists db'. split; [exact Hins |].
  apply (Hotro 2024%Z 3%Z). simpl. congruence.
Defined.

(** ** Dates between the forms and the store *)


(** X11. The text [strftime_ymd] prints for a calendar date with a
    four-digit year is read back by [strptime_ymd] as that date: a form's
    date reaches the store with the year and month the form shows. *)
Theorem fecha_ida_y_vuelta (d : datetime) :
  (1000 <= year d)%Z ->
  Fecha.fecha_valida (year d) (month d) (day d) = true ->
  Fecha.strptime_ymd (Fecha.strftime_ymd d) = Some d.
Proof.
  destruct d as [y m dd]. cbn [year month day]. intros H1000 Hv.
  now apply FechaRoundTrip.strptime_strftime_campos.
Qed.

Lemma fecha_ida_y_vuelta_witness :
  Fecha.strptime_ymd
    (Fecha.strftime_ymd {| year := 2024; month := 2; day := 29 |})
  = Some {| year := 2024; month := 2; day := 29 |}.
Proof.
  apply (fecha_ida_y_vuelta {| year := 2024; month := 2; day := 29 |});
    [simpl; lia | reflexivity].
Defined.

(** ** The forms *)

(** X12. The expense form saves only with a concept and a positive amount:
    then the new row is in the period of the selected date, the period
    whose summary the form reports; otherwise nothing is stored and an
    error is reported. *)
Theorem guardar_gasto_spec (strptime : string -> option datetime)
    (db : DB) (f : datetime) (cat c : string) (v : Qc) :
  strptime (Fecha.strftime_ymd f) = Some f ->
  (no_vacio c = true -> (Q2Qc 0 < v)%Qc ->
   exists db',
     insertar_gasto strptime db (Fecha.strftime_ymd f) cat c v = Some db'
     /\ guardar_gasto strptime db f cat c v
        = Some (db', Guardado (resumen_buckets db' (year f) (month f),
                               saldo_cuenta_post db' (year f) (month f)))
     /\ {| id_gasto := next_rowid (gastos db);
           gas_fecha := Fecha.strftime_ymd f;
           gas_anio := year f; gas_mes := month f; categoria := cat;
           gas_concepto := c; valor := v |}
        ∈ obtener_gastos db' (Some (year f)) (Some (month f)))
  /\ (no_vacio c = false \/ ~ (Q2Qc 0 < v)%Qc ->
      guardar_gasto strptime db f cat c v = Some (db, Rechazado)).
Proof.
  intros Hf. split.
  - intros Hc Hv.
    destruct (insertar_gasto_Some strptime db _ cat c v f Hf)
      as (db' & Hins & _ & Hfil & _).
    exists db'. split; [exact Hins |]. split.
    + unfold guardar_gasto. rewrite Hc, bool_decide_eq_true_2 by exact Hv.
      cbn [andb]. rewrite Hins. reflexivity.
    + unfold obtener_gastos. apply elem_of_read_sql_query. split.
      * rewrite Hfil, elem_of_app. right. apply list_elem_of_singleton.
        reflexivity.
      * simpl. now rewrite !Z.eqb_refl.
  - intros [Hc|Hv]; unfold guardar_gasto.
    + now rewrite Hc.
    + rewrite bool_decide_eq_false_2 by exact Hv. now rewrite andb_false_r.
Qed.

Lemma guardar_gasto_spec_witness :
  (exists db',
      insertar_gasto Fecha.strptime_ymd db_escenario "2024-03-09" "Deseos"
        "cine" (Qc_of_Z 20) = Some db'
      /\ guardar_gasto Fecha.strptime_ymd db_escenario
           {| year := 2024; month := 3; day := 9 |} "Deseos" "cine" (Qc_of_Z 20)
         = Some (db', Guardado (resumen_buckets db' 2024 3,
                                saldo_cuenta_post db' 2024 3)))
  /\ guardar_gasto Fecha.strptime_ymd db_escenario
       {| year := 2024; month := 3; day := 9 |} "Deseos" "" (Qc_of_Z 20)
     = Some (db_escenario, Rechazado).
Proof.
  pose proof (guardar_gasto_spec Fecha.strptime_ymd db_escenario
                {| year := 2024; month := 3; day := 9 |} "Deseos" "cine"
                (Qc_of_Z 20) eq_refl) as [Hok _].
  pose proof (guardar_gasto_spec Fecha.strptime_ymd db_escenario
                {| year := 2024; month := 3; day := 9 |} "Deseos" ""
                (Qc_of_Z 20) eq_refl) as [_ Hno].
  split.
  - destruct Hok as (db' & Hins & Hg & _); [reflexivity | reflexivity |].
    exists db'. split; [exact Hins | exact Hg].
  - apply Hno. left. reflexivity.
Defined.

(** X13. The income form saves only with a concept, a positive total and
    percentages whose binary64 sum, added left to right, equals 100: then
    the new row, holding the numbers the inputs stand for, is in the period
    of the selected date; otherwise nothing is stored and an error is
    reported. *)
Theorem guardar_ingreso_spec (strptime : string -> option datetime)
    (db : DB) (f : datetime) (c : string) (T : Qc) (pn pd pa : float) :
  strptime (Fecha.strftime_ymd f) = Some f ->
  (no_vacio c = true -> (Q2Qc 0 < T)%Qc ->
   PrimFloat.eqb (pn + pd + pa) 100 = true ->
   exists db',
     insertar_ingreso strptime db (Fecha.strftime_ymd f) c T
       (Binary64.racional pn) (Binary64.racional pd) (Binary64.racional pa)
     = Some db'
     /\ guardar_ingreso strptime db f c T pn pd pa = Some (db', Guardado ())
     /\ {| id_ingreso := next_rowid (ingresos db);
           ing_fecha := Fecha.strftime_ymd f;
           ing_anio := year f; ing_mes := month f;
           ing_concepto := c; valor_total := T;
           porc_necesidades := Binary64.racional pn;
           porc_deseos := Binary64.racional pd;
           porc_ahorro := Binary64.racional pa;
           monto_necesidades := (T * (Binary64.racional pn / cien))%Qc;
           monto_deseos := (T * (Binary64.racional pd / cien))%Qc;
           monto_ahorro := (T * (Binary64.racional pa / cien))%Qc |}
        ∈ obtener_ingresos db' (Some (year f)) (Some (month f)))
  /\ (no_vacio c = false \/ ~ (Q2Qc 0 < T)%Qc
      \/ PrimFloat.eqb (pn + pd + pa) 100 = false ->
      guardar_ingreso strptime db f c T pn pd pa = Some (db, Rechazado)).
Proof.
  intros Hf. split.
  - intros Hc HT Hs.
    destruct (insertar_ingreso_Some strptime db _ c T (Binary64.racional pn)
                (Binary64.racional pd) (Binary64.racional pa) f Hf)
      as (db' & Hins & _ & Hfil & _).
    exists db'. split; [exact Hins |]. split.
    + unfold guardar_ingreso. cbv zeta.
      rewrite Hc, bool_decide_eq_true_2 by exact HT.
      rewrite Hs. cbn [andb]. rewrite Hins. reflexivity.
    + unfold obtener_ingresos. apply elem_of_read_sql_query. split.
      * rewrite Hfil, elem_of_app. right. apply list_elem_of_singleton.
        reflexivity.
      * simpl. now rewrite !Z.eqb_refl.
  - intros Hbad. unfold guardar_ingreso. cbv zeta.
    destruct Hbad as [Hc|[HT|Hs]].
    + now rewrite Hc.
    + rewrite (bool_decide_eq_false_2 _ HT). now rewrite andb_false_r.
    + rewrite Hs. now rewrite andb_false_r.
Qed.

Lemma guardar_ingreso_spec_witness :
  (exists db',
      guardar_ingreso Fecha.strptime_ymd db_vacia
        {| year := 2024; month := 3; day := 1 |} "Salary" (Qc_of_Z 1000)
        0x1.0a66666666666p+5 0x1.0a66666666666p+5 0x1.0b33333333333p+5
      = Some (db', Guardado ()))
  /\ guardar_ingreso Fecha.strptime_ymd db_vacia
       {| year := 2024; month := 3; day := 1 |} "Salary" (Qc_of_Z 1000)
       0x1.999999999999ap-4 0x1.0a66666666666p+6 0x1.0a66666666666p+5
     = Some (db_vacia, Rechazado).
Proof.
  pose proof (guardar_ingreso_spec Fecha.strptime_ymd db_vacia
                {| year := 2024; month := 3; day := 1 |} "Salary"
                (Qc_of_Z 1000)
                0x1.0a66666666666p+5 0x1.0a66666666666p+5 0x1.0b33333333333p+5
                eq_refl)
    as [Hok _].
  pose proof (guardar_ingreso_spec Fecha.strptime_ymd db_vacia
                {| year := 2024; month := 3; day := 1 |} "Salary"
                (Qc_of_Z 1000)
                0x1.999999999999ap-4 0x1.0a66666666666p+6 0x1.0a66666666666p+5
                eq_refl)
    as [_ Hno].
  split.
  - destruct Hok as (db' & _ & Hg & _);
      [reflexivity | reflexivity | vm_compute; reflexivity |].
    exists db'. exact Hg.
  - apply Hno. right. right. vm_compute. reflexivity.
Defined.

(** The form adds doubles: 33.3, 33.3 and 33.4 are saved, as are 2^-50, 50
    and 50, whose values do not add up to 100; 0.1, 66.6 and 33.3 are
    turned down. *)
Remark guardar_ingreso_binary64 :
  PrimFloat.eqb (0x1.0a66666666666p+5 + 0x1.0a66666666666p+5
                 + 0x1.0b33333333333p+5) 100 = true
  /\ PrimFloat.eqb (0x1p-50 + 50 + 50) 100 = true
  /\ (Binary64.racional 0x1p-50 + Binary64.racional 50 + Binary64.racional 50
      <> cien)%Qc
  /\ PrimFloat.eqb (0x1.999999999999ap-4 + 0x1.0a66666666666p+6
                    + 0x1.0a66666666666p+5) 100 = false.
Proof.
  split; [vm_compute; reflexivity |].
  split; [vm_compute; reflexivity |].
  split; [| vm_compute; reflexivity].
  intros Heq. apply (f_equal this) in Heq. vm_compute in Heq. discriminate.
Qed.

Lemma Forall_sql_delete {R : Type} `{Fila R} (P : R -> Prop) (t : Tabla R) (k : Z) :
  Forall P (filas t) -> Forall P (filas (sql_delete t k)).
Proof.
  rewrite !Forall_forall. intros Hall r Hr.
  apply elem_of_sql_delete in Hr as [Hr _]. auto.
Qed.

Lemma actuar_es_ejecutar (strptime : string -> option datetime)
    (db : DB) (a : Accion) :
  actuar strptime db a = db
  \/ exists op, actuar strptime db a = ejecutar strptime db op.
Proof.
  destruct a as [f c v pn pd pa|f cat c v|k|k]; simpl.
  - unfold guardar_ingreso. cbv zeta. destruct (_ && _); [|now left].
    right.
    exists (OpInsertarIngreso (Fecha.strftime_ymd f) c v (Binary64.racional pn)
              (Binary64.racional pd) (Binary64.racional pa)).
    simpl. destruct (insertar_ingreso _ _ _ _ _ _ _ _); reflexivity.
  - unfold guardar_gasto. cbv zeta. destruct (_ && _); [|now left].
    right. exists (OpInsertarGasto (Fecha.strftime_ymd f) cat c v).
    simpl. destruct (insertar_gasto _ _ _ _ _ _); reflexivity.
  - unfold llamar_eliminar_ingreso. destruct (int64 k); [|now left].
    right. now exists (OpEliminarIngreso k).
  - unfold llamar_eliminar_gasto. destruct (int64 k); [|now left].
    right. now exists (OpEliminarGasto k).
Qed.

Lemma actuar_validos (strptime : string -> option datetime)
    (db : DB) (a : Accion) :
  Forall ingreso_valido (filas (ingresos db)) ->
  Forall gasto_valido (filas (gastos db)) ->
  Forall ingreso_valido (filas (ingresos (actuar strptime db a)))
  /\ Forall gasto_valido (filas (gastos (actuar strptime db a))).
Proof.
  intros Hi Hg. destruct a as [f c v pn pd pa|f cat c v|k|k]; simpl.
  - unfold guardar_ingreso. cbv zeta.
    destruct (no_vacio c) eqn:Hc; [|now split].
    destruct (bool_decide (Q2Qc 0 < v)%Qc) eqn:Hv; [|now split].
    destruct (PrimFloat.eqb (pn + pd + pa) 100) eqn:Hs; [|now split].
    apply bool_decide_eq_true_1 in Hv. cbn [andb].
    unfold insertar_ingreso. destruct (strptime _) as [d|]; simpl; [|now split].
    split; [|exact Hg].
    apply Forall_app. split; [exact Hi |].
    constructor; [|constructor].
    split; [|split; assumption].
    exists pn, pd, pa. simpl. repeat split; try reflexivity. exact Hs.
  - unfold guardar_gasto. cbv zeta.
    destruct (no_vacio c) eqn:Hc; [|now split].
    destruct (bool_decide (Q2Qc 0 < v)%Qc) eqn:Hv; [|now split].
    apply bool_decide_eq_true_1 in Hv. cbn [andb].
    unfold insertar_gasto. destruct (strptime _) as [d|]; simpl; [|now split].
    split; [exact Hi |].
    apply Forall_app. split; [exact Hg |].
    constructor; [|constructor]. split; assumption.
  - unfold llamar_eliminar_ingreso. destruct (int64 k); simpl; [|now split].
    split; [|exact Hg]. exact (Forall_sql_delete _ (ingresos db) k Hi).
  - unfold llamar_eliminar_gasto. destruct (int64 k); simpl; [|now split].
    split; [exact Hi |]. exact (Forall_sql_delete _ (gastos db) k Hg).
Qed.

(** X14. Whatever the user does through the forms and the delete buttons,
    starting from a fresh store, every stored income has a concept, a
    positive total and percentages that are doubles whose binary64 sum is
    100, every stored expense has a concept and a positive amount, and the
    keys of each table stay unique. *)
Theorem formularios_solo_validos (strptime : string -> option datetime)
    (acs : list Accion) :
  let db := actuar_todas strptime db_vacia acs in
  Forall ingreso_valido (filas (ingresos db))
  /\ Forall gasto_valido (filas (gastos db))
  /\ db_ok db.
Proof.
  cbv zeta. unfold actuar_todas.
  assert (Hgen : forall db,
    Forall ingreso_valido (filas (ingresos db)) ->
    Forall gasto_valido (filas (gastos db)) -> db_ok db ->
    Forall ingreso_valido (filas (ingresos (foldl (actuar strptime) db acs)))
    /\ Forall gasto_valido (filas (gastos (foldl (actuar strptime) db acs)))
    /\ db_ok (foldl (actuar strptime) db acs)).
  { induction acs as [|a acs IH]; intros db Hi Hg Hok;
      [split; [|split]; assumption |].
    simpl. destruct (actuar_validos strptime db a Hi Hg) as [Hi' Hg'].
    apply IH; [exact Hi' | exact Hg' |].
    destruct (actuar_es_ejecutar strptime db a) as [->|[op ->]];
      [exact Hok | now apply ejecutar_db_ok]. }
  apply Hgen; [constructor | constructor | apply db_ok_vacia].
Qed.

(** ** Classifier: what it ignores *)

Module StripFacts.
Import Str.

Lemma lower_char_idem (c : ascii) : lower_char (lower_char c) = lower_char c.
Proof. destruct c as [[] [] [] [] [] [] [] []]; reflexivity. Qed.

Lemma lower_idem (s : string) : lower (lower s) = lower s.
Proof.
  induction s as [|c s IH]; simpl; [reflexivity |].
  now rewrite lower_char_idem, IH.
Qed.

Lemma lstrip_lower (s : string) : lstrip (lower s) = lower (lstrip s).
Proof.
  induction s as [|c s IH]; simpl; [reflexivity |].
  rewrite StrFacts.isspace_lower_char. destruct (isspace c); [exact IH | reflexivity].
Qed.

Lemma rstrip_lower (s : string) : rstrip (lower s) = lower (rstrip s).
Proof.
  induction s as [|c s IH]; simpl; [reflexivity |].
  rewrite IH, StrFacts.isspace_lower_char.
  destruct (rstrip s) as [|b t]; simpl; [destruct (isspace c) |]; reflexivity.
Qed.

Lemma strip_lower (s : string) : strip (lower s) = lower (strip s).
Proof. unfold strip. now rewrite lstrip_lower, rstrip_lower. Qed.

Lemma lstrip_blank (s : string) : blank s = true -> lstrip s = "".
Proof.
  induction s as [|c s IH]; simpl; [reflexivity |].
  intros [Hc Hs]%andb_true_iff. rewrite Hc. auto.
Qed.

Lemma lstrip_app (s r : string) :
  lstrip (s ++ r) = if blank s then lstrip r else lstrip s ++ r.
Proof.
  induction s as [|c s IH]; simpl; [reflexivity |].
  destruct (isspace c); simpl; [exact IH | reflexivity].
Qed.

Lemma rstrip_app_blank_r (s r : string) :
  blank r = true -> rstrip (s ++ r) = rstrip s.
Proof.
  intros Hr. induction s as [|c s IH]; simpl.
  - now apply StrFacts.rstrip_blank.
  - now rewrite IH.
Qed.

Lemma strip_surrounded (l s r : string) :
  blank l = true -> blank r = true -> strip (l ++ s ++ r) = strip s.
Proof.
  intros Hl Hr. unfold strip.
  rewrite (StrFacts.lstrip_blank_app l _ Hl), lstrip_app.
  destruct (blank s) eqn:Hs.
  - now rewrite (lstrip_blank r Hr), (lstrip_blank s Hs).
  - now apply rstrip_app_blank_r.
Qed.

End StripFacts.

(** X15. The bucket of a category does not change when blanks are put
    around it or when it is written in lower case. *)
Theorem clasificar_bucket_invariante (cat l r : string) :
  Str.blank l = true -> Str.blank r = true ->
  clasificar_bucket (l ++ cat ++ r) = clasificar_bucket cat
  /\ clasificar_bucket (Str.lower cat) = clasificar_bucket cat.
Proof.
  intros Hl Hr. unfold clasificar_bucket. split.
  - now rewrite (StripFacts.strip_surrounded l cat r Hl Hr).
  - now rewrite StripFacts.strip_lower, StripFacts.lower_idem.
Qed.

Lemma clasificar_bucket_invariante_witness :
  clasificar_bucket ("  " ++ "Ahorro" ++ " ") = clasificar_bucket "Ahorro"
  /\ clasificar_bucket (Str.lower "Ahorro") = clasificar_bucket "Ahorro".
Proof.
  apply (clasificar_bucket_invariante "Ahorro" "  " " "); reflexivity.
Defined.

(** ** Years offered by the selector *)

Lemma select_anios_nil (db : DB) :
  select_anios db = [] ->
  filas (ingresos db) = [] /\ filas (gastos db) = [].
Proof.
  intros E. pose proof (elem_of_select_anios db) as Hel. rewrite E in Hel.
  split.
  - destruct (filas (ingresos db)) as [|r l]; [reflexivity |].
    exfalso. apply (not_elem_of_nil (anio r)), Hel. left.
    rewrite fmap_cons. left.
  - destruct (filas (gastos db)) as [|r l]; [reflexivity |].
    exfalso. apply (not_elem_of_nil (anio r)), Hel. right.
    rewrite fmap_cons. left.
Qed.

Lemma elem_of_anios_disponibles (now_year : Z) (db : DB) (y : Z) :
  y ∈ (anio <$> filas (ingresos db)) \/ y ∈ (anio <$> filas (gastos db)) ->
  y ∈ obtener_anios_disponibles now_year db.
Proof.
  intros Hy. apply (elem_of_select_anios db) in Hy.
  unfold obtener_anios_disponibles.
  destruct (select_anios db); [now apply elem_of_nil in Hy | exact Hy].
Qed.

(** X16. The list of years is never empty, lists the year of every stored
    row, and holds a year that no row has only when both tables are empty
    and that year is the current one; after a successful insert the year
    of the inserted date is listed. *)
Theorem anios_disponibles_seleccionables (strptime : string -> option datetime)
    (now_year : Z) (db : DB) :
  obtener_anios_disponibles now_year db <> []
  /\ (forall r, r ∈ filas (ingresos db) ->
                ing_anio r ∈ obtener_anios_disponibles now_year db)
  /\ (forall g, g ∈ filas (gastos db) ->
                gas_anio g ∈ obtener_anios_disponibles now_year db)
  /\ (forall y, y ∈ obtener_anios_disponibles now_year db ->
                y ∈ (anio <$> filas (ingresos db))
                \/ y ∈ (anio <$> filas (gastos db))
                \/ (y = now_year /\ filas (ingresos db) = []
                    /\ filas (gastos db) = []))
  /\ (forall fecha cat concepto T pn pd pa v d db',
         strptime fecha = Some d ->
         insertar_ingreso strptime db fecha concepto T pn pd pa = Some db'
         \/ insertar_gasto strptime db fecha cat concepto v = Some db' ->
         year d ∈ obtener_anios_disponibles now_year db').
Proof.
  split; [|split; [|split; [|split]]].
  - unfold obtener_anios_disponibles. destruct (select_anios db); discriminate.
  - intros r Hr. apply elem_of_anios_disponibles. left.
    apply list_elem_of_fmap. now exists r.
  - intros g Hg. apply elem_of_anios_disponibles. right.
    apply list_elem_of_fmap. now exists g.
  - intros y. unfold obtener_anios_disponibles.
    destruct (select_anios db) as [|y0 ys] eqn:E.
    + intros Hy. apply list_elem_of_singleton in Hy.
      destruct (select_anios_nil db E) as [Ei Eg]. right. right. auto.
    + intros Hy. rewrite <- E in Hy. apply elem_of_select_anios in Hy. tauto.
  - intros fecha cat concepto T pn pd pa v d db' Hd [Hins|Hins];
      apply elem_of_anios_disponibles.
    + destruct (insertar_ingreso_Some strptime db fecha concepto T pn pd pa d Hd)
        as (db1 & Hins1 & _ & Hf & _).
      rewrite Hins in Hins1. injection Hins1 as <-.
      left. rewrite Hf, fmap_app, elem_of_app. right. simpl. left.
    + destruct (insertar_gasto_Some strptime db fecha cat concepto v d Hd)
        as (db1 & Hins1 & _ & Hf & _).
      rewrite Hins in Hins1. injection Hins1 as <-.
      right. rewrite Hf, fmap_app, elem_of_app. right. simpl. left.
Qed.

Lemma anios_disponibles_seleccionables_witness :
  2024%Z ∈ obtener_anios_disponibles 2026 (default db_vacia escenario_ingreso).
Proof.
  apply (proj2 (proj2 (proj2 (proj2
           (anios_disponibles_seleccionables Fecha.strptime_ymd 2026 db_vacia))))
         "2024-03-01" "" "Salary" (Qc_of_Z 1000) (Qc_of_Z 80) (Qc_of_Z 10)
         (Qc_of_Z 10) (Qc_of_Z 0) {| year := 2024; month := 3; day := 1 |}
         (default db_vacia escenario_ingreso)).
  - reflexivity.
  - left. reflexivity.
Defined.

(** ** Labels of the delete selectors *)

Lemma filter_id_head {R : Type} (p : R -> bool) (l : list R) (r : R) :
  r ∈ l -> p r = true -> exists r' l', List.filter p l = r' :: l'.
Proof.
  intros Hin Hp.
  assert (Hf : In r (List.filter p l))
    by (apply List.filter_In; split; [apply list_elem_of_In, Hin | exact Hp]).
  destruct (List.filter p l) as [|r' l']; [destruct Hf | eauto].
Qed.

(** X17. Every key the delete selectors offer is the key of a stored row,
    every stored row's key is offered, and the label lookup finds a row
    with that key for each offered key, so it never indexes an empty
    result; for a key that is not offered it would. *)
Theorem etiquetas_eliminar (db : DB) (x : Z) :
  (x ∈ opciones_eliminar_ingreso db <-> x ∈ rowids (filas (ingresos db)))
  /\ (x ∈ opciones_eliminar_gasto db <-> x ∈ rowids (filas (gastos db)))
  /\ (x ∈ opciones_eliminar_ingreso db ->
      exists r, r ∈ filas (ingresos db) /\ id_ingreso r = x
                /\ concepto_de_ingreso (obtener_ingresos db None None) x
                   = Some (ing_concepto r))
  /\ (x ∈ opciones_eliminar_gasto db ->
      exists g, g ∈ filas (gastos db) /\ id_gasto g = x
                /\ concepto_de_gasto (obtener_gastos db None None) x
                   = Some (gas_concepto g))
  /\ (x ∉ opciones_eliminar_ingreso db ->
      concepto_de_ingreso (obtener_ingresos db None None) x = None)
  /\ (x ∉ opciones_eliminar_gasto db ->
      concepto_de_gasto (obtener_gastos db None None) x = None).
Proof.
  assert (Hi : forall r, r ∈ obtener_ingresos db None None <-> r ∈ filas (ingresos db)).
  { intros r. unfold obtener_ingresos. rewrite elem_of_read_sql_query. simpl. tauto. }
  assert (Hg : forall g, g ∈ obtener_gastos db None None <-> g ∈ filas (gastos db)).
  { intros g. unfold obtener_gastos. rewrite elem_of_read_sql_query. simpl. tauto. }
  assert (Hoi : x ∈ opciones_eliminar_ingreso db <-> x ∈ rowids (filas (ingresos db))).
  { unfold opciones_eliminar_ingreso, rowids. rewrite !list_elem_of_fmap.
    split; intros (r & -> & Hr); exists r; split; try reflexivity; now apply Hi. }
  assert (Hog : x ∈ opciones_eliminar_gasto db <-> x ∈ rowids (filas (gastos db))).
  { unfold opciones_eliminar_gasto, rowids. rewrite !list_elem_of_fmap.
    split; intros (r & -> & Hr); exists r; split; try reflexivity; now apply Hg. }
  split; [exact Hoi |]. split; [exact Hog |].
  split; [|split; [|split]].
  - intros Hx. unfold opciones_eliminar_ingreso in Hx.
    apply list_elem_of_fmap in Hx as (r0 & -> & Hr0).
    unfold concepto_de_ingreso.
    destruct (filter_id_head (fun r => (id_ingreso r =? id_ingreso r0)%Z)
                (obtener_ingresos db None None) r0 Hr0 (Z.eqb_refl _))
      as (r' & l' & E).
    assert (Hin : In r' (List.filter (fun r => (id_ingreso r =? id_ingreso r0)%Z)
                           (obtener_ingresos db None None)))
      by (rewrite E; now left).
    apply List.filter_In in Hin as [Hin Heq]. apply Z.eqb_eq in Heq.
    exists r'. split; [apply Hi, list_elem_of_In, Hin |].
    split; [exact Heq |]. now rewrite E.
  - intros Hx. unfold opciones_eliminar_gasto in Hx.
    apply list_elem_of_fmap in Hx as (r0 & -> & Hr0).
    unfold concepto_de_gasto.
    destruct (filter_id_head (fun r => (id_gasto r =? id_gasto r0)%Z)
                (obtener_gastos db None None) r0 Hr0 (Z.eqb_refl _))
      as (r' & l' & E).
    assert (Hin : In r' (List.filter (fun r => (id_gasto r =? id_gasto r0)%Z)
                           (obtener_gastos db None None)))
      by (rewrite E; now left).
    apply List.filter_In in Hin as [Hin Heq]. apply Z.eqb_eq in Heq.
    exists r'. split; [apply Hg, list_elem_of_In, Hin |].
    split; [exact Heq |]. now rewrite E.
  - intros Hx. unfold concepto_de_ingreso.
    destruct (List.filter _ _) as [|r' l'] eqn:E; [reflexivity |]. exfalso.
    assert (Hin : In r' (List.filter (fun r => (id_ingreso r =? x)%Z)
                           (obtener_ingresos db None None)))
      by (rewrite E; now left).
    apply List.filter_In in Hin as [Hin Heq]. apply Z.eqb_eq in Heq.
    apply Hx. unfold opciones_eliminar_ingreso. apply list_elem_of_fmap.
    exists r'. split; [now symmetry | apply list_elem_of_In, Hin].
  - intros Hx. unfold concepto_de_gasto.
    destruct (List.filter _ _) as [|r' l'] eqn:E; [reflexivity |]. exfalso.
    assert (Hin : In r' (List.filter (fun r => (id_gasto r =? x)%Z)
                           (obtener_gastos db None None)))
      by (rewrite E; now left).
    apply List.filter_In in Hin as [Hin Heq]. apply Z.eqb_eq in Heq.
    apply Hx. unfold opciones_eliminar_gasto. apply list_elem_of_fmap.
    exists r'. split; [now symmetry | apply list_elem_of_In, Hin].
Qed.

(** ** What a delete leaves alone *)

Lemma filter_filter_out {A : Type} (p : A -> bool) (Q : A -> Prop)
    `{forall x, Decision (Q x)} (l : list A) :
  (forall x, x ∈ l -> p x = true -> Q x) ->
  List.filter p (filter Q l) = List.filter p l.
Proof.
  induction l as [|x l IH]; intros Hall; [reflexivity |].
  assert (IH' : List.filter p (filter Q l) = List.filter p l)
    by (apply IH; intros y Hy; apply Hall; now right).
  destruct (decide (Q x)) as [Hq|Hn].
  - rewrite filter_cons_True by exact Hq. simpl. now rewrite IH'.
  - rewrite filter_cons_False by exact Hn. simpl.
    destruct (p x) eqn:Hp; [|exact IH'].
    exfalso. apply Hn, Hall; [left | exact Hp].
Qed.

Lemma read_sql_query_delete_out {R : Type} `{Fila R} (t : Tabla R) (k : Z)
    (w : Where) :
  (forall r, r ∈ filas t -> rowid r = k -> cumple w r = false) ->
  read_sql_query (sql_delete t k) w = read_sql_query t w.
Proof.
  intros Hout. unfold read_sql_query. simpl. f_equal.
  apply filter_filter_out. intros r Hr Hw Hk.
  specialize (Hout r Hr Hk). congruence.
Qed.

(** X20. Deleting an expense changes no income query and no budget, and
    for a year and month in which no expense carries the deleted key it
    changes neither the expense query nor any figure of the summary. *)
Theorem eliminar_gasto_marco (db : DB) (id : Z) :
  (forall oa om,
      obtener_ingresos (eliminar_gasto db id) oa om = obtener_ingresos db oa om)
  /\ (forall a m,
         presupuesto (resumen_buckets (eliminar_gasto db id) a m)
         = presupuesto (resumen_buckets db a m))
  /\ (forall a m,
         (forall g, g ∈ filas (gastos db) -> id_gasto g = id ->
                    (a, m) <> (gas_anio g, gas_mes g)) ->
         obtener_gastos (eliminar_gasto db id) (Some a) (Some m)
         = obtener_gastos db (Some a) (Some m)
         /\ resumen_buckets (eliminar_gasto db id) a m = resumen_buckets db a m).
Proof.
  split; [reflexivity |].
  split; [intros a m; now apply presupuesto_ingresos |].
  intros a m Hout.
  assert (Hq : obtener_gastos (eliminar_gasto db id) (Some a) (Some m)
               = obtener_gastos db (Some a) (Some m)).
  { unfold obtener_gastos. simpl gastos.
    apply read_sql_query_delete_out. intros g Hg Hk.
    apply (cumple_otro_periodo (H:=Fila_Gasto)). now apply Hout. }
  split; [exact Hq |].
  apply resumen_buckets_ext; [reflexivity | exact Hq].
Qed.

Lemma eliminar_gasto_marco_witness :
  resumen_buckets (eliminar_gasto db_escenario 1) 2024 4
  = resumen_buckets db_escenario 2024 4.
Proof.
  apply (proj2 (proj2 (eliminar_gasto_marco db_escenario 1))).
  intros g Hg _. apply list_elem_of_singleton in Hg. subst g.
  intros Heq. apply (f_equal snd) in Heq. vm_compute in Heq. discriminate.
Defined.

(** X21. Deleting an income changes no expense query and no spent figure,
    and for a year and month in which no income carries the deleted key it
    changes neither the income query nor any figure of the summary. *)
Theorem eliminar_ingreso_marco (db : DB) (id : Z) :
  (forall oa om,
      obtener_gastos (eliminar_ingreso db id) oa om = obtener_gastos db oa om)
  /\ (forall a m,
         gastado (resumen_buckets (eliminar_ingreso db id) a m)
         = gastado (resumen_buckets db a m))
  /\ (forall a m,
         (forall r, r ∈ filas (ingresos db) -> id_ingreso r = id ->
                    (a, m) <> (ing_anio r, ing_mes r)) ->
         obtener_ingresos (eliminar_ingreso db id) (Some a) (Some m)
         = obtener_ingresos db (Some a) (Some m)
         /\ resumen_buckets (eliminar_ingreso db id) a m = resumen_buckets db a m).
Proof.
  split; [reflexivity |].
  split; [intros a m; now apply gastado_gastos |].
  intros a m Hout.
  assert (Hq : obtener_ingresos (eliminar_ingreso db id) (Some a) (Some m)
               = obtener_ingresos db (Some a) (Some m)).
  { unfold obtener_ingresos. simpl ingresos.
    apply read_sql_query_delete_out. intros r Hr Hk.
    apply (cumple_otro_periodo (H:=Fila_Ingreso)). now apply Hout. }
  split; [exact Hq |].
  apply resumen_buckets_ext; [exact Hq | reflexivity].
Qed.

Lemma eliminar_ingreso_marco_witness :
  resumen_buckets (eliminar_ingreso db_escenario 1) 2024 4
  = resumen_buckets db_escenario 2024 4.
Proof.
  apply (proj2 (proj2 (eliminar_ingreso_marco db_escenario 1))).
  intros r Hr _. apply list_elem_of_singleton in Hr. subst r.
  intros Heq. apply (f_equal snd) in Heq. vm_compute in Heq. discriminate.
Defined.
